(** * database_tools.py: a shallow embedding and its verified properties

    The module [database_tools.py] provisions an SQLite file with a demo
    schema, runs raw SQL text through the [sqlite3] driver and reflects the
    schema.  The driver is not part of the repository: it enters this
    development as an [Engine], a record of the driver entry points the
    module calls ([connect], [execute], [executemany], [commit], [close])
    and of the one file-system test it makes ([os.path.exists]).  Every function of the module is written once, over an
    arbitrary engine, in a state-and-exception monad that threads the
    database through the calls in program order.

    A Python [str] is modelled by a [string] holding one character per
    code point, for code points below 256; on these [strip], the test
    [upper().startswith("SELECT")] and the column lookup of [sqlite3.Row]
    are modelled exactly.  A Python [float] is carried by its [repr]
    text. *)

From Stdlib Require Import String Ascii List ZArith Bool Lia DecimalString.
Import ListNotations.
Open Scope string_scope.
Open Scope Z_scope.

(** ** Python values and exceptions *)

Inductive value : Type :=
| VNone
| VInt (z : Z)
| VReal (repr : string)
| VText (s : string).

Definition value_eqb (a b : value) : bool :=
  match a, b with
  | VNone, VNone => true
  | VInt x, VInt y => Z.eqb x y
  | VReal x, VReal y => String.eqb x y
  | VText x, VText y => String.eqb x y
  | _, _ => false
  end.

(** [isinstance(v, str)] *)
Definition is_str (v : value) : bool :=
  match v with VText _ => true | _ => false end.

(** [bool(v)] *)
Definition truthy (v : value) : bool :=
  match v with
  | VNone => false
  | VInt z => negb (Z.eqb z 0)
  | VReal r => negb (String.eqb r "0.0" || String.eqb r "-0.0")
  | VText s => negb (String.eqb s "")
  end.

(** [v == 0] *)
Definition equals_zero (v : value) : bool :=
  match v with
  | VInt z => Z.eqb z 0
  | VReal r => String.eqb r "0.0" || String.eqb r "-0.0"
  | _ => false
  end.

(** [str(v)], as an f-string renders the value. *)
Definition py_str (v : value) : string :=
  match v with
  | VNone => "None"
  | VInt z => NilZero.string_of_int (Z.to_int z)
  | VReal r => r
  | VText s => s
  end.

(** The two exception classes the module tells apart: [sqlite3.Error]
    (and its subclasses), and any other [Exception]. *)
Inductive exn : Type :=
| SqliteError (msg : string)
| OtherException (msg : string).

(** [str(e)] *)
Definition exn_text (e : exn) : string :=
  match e with SqliteError m => m | OtherException m => m end.

Definition is_sqlite_error (e : exn) : bool :=
  match e with SqliteError _ => true | OtherException _ => false end.

(** ** Python string methods used by the module *)

Module PyStr.

(** [str.isspace] on one character (ASCII and Latin-1 white space). *)
Definition is_space (c : ascii) : bool :=
  let n := nat_of_ascii c in
  (Nat.leb 9 n && Nat.leb n 13) || (Nat.leb 28 n && Nat.leb n 32)
  || Nat.eqb n 133 || Nat.eqb n 160.

Fixpoint lstrip (s : string) : string :=
  match s with
  | String c s' => if is_space c then lstrip s' else s
  | EmptyString => EmptyString
  end.

Fixpoint rstrip (s : string) : string :=
  match s with
  | EmptyString => EmptyString
  | String c s' =>
      match rstrip s' with
      | EmptyString => if is_space c then EmptyString else String c EmptyString
      | r => String c r
      end
  end.

(** [s.strip()] *)
Definition strip (s : string) : string := rstrip (lstrip s).

Definition upper_char (c : ascii) : ascii :=
  let n := nat_of_ascii c in
  if Nat.leb 97 n && Nat.leb n 122 then ascii_of_nat (n - 32) else c.

(** [s.upper()] on the ASCII letters; the other characters are kept, none
    of them upper-cases into a prefix of an ASCII keyword. *)
Fixpoint upper (s : string) : string :=
  match s with
  | EmptyString => EmptyString
  | String c s' => String (upper_char c) (upper s')
  end.

(** [s.startswith(p)] *)
Definition startswith (s p : string) : bool := String.prefix p s.

(** Equality up to the case of the ASCII letters, every other character
    compared as it is: the comparison of SQLite for names. *)
Definition eqb_nocase (a b : string) : bool := String.eqb (upper a) (upper b).

(** [s.isascii()] *)
Fixpoint is_ascii (s : string) : bool :=
  match s with
  | EmptyString => true
  | String c s' => Nat.ltb (nat_of_ascii c) 128 && is_ascii s'
  end.

End PyStr.

(** ** Dictionaries

    A Python [dict] keeps its keys in first-insertion order; assigning an
    existing key replaces the value in place. *)

Module PyDict.

Section Dict.
Context {K V : Type} (keq : K -> K -> bool).

Definition t := list (K * V).

Fixpoint set (d : t) (k : K) (v : V) : t :=
  match d with
  | [] => [(k, v)]
  | (k', v') :: d' => if keq k' k then (k', v) :: d' else (k', v') :: set d' k v
  end.

Fixpoint get (d : t) (k : K) : option V :=
  match d with
  | [] => None
  | (k', v') :: d' => if keq k' k then Some v' else get d' k
  end.

Definition keys (d : t) : list K := map fst d.

Definition has_key (d : t) (k : K) : bool :=
  match get d k with Some _ => true | None => false end.
End Dict.

End PyDict.

(** A result row as the caller sees it: [Dict[str, Any]]. *)
Definition record := list (string * value).

(** ** The driver interface

    [db] is the whole persistent world the driver acts on: the database
    file together with whatever the open connection holds uncommitted.
    Every entry point returns the new world and either a value or a raised
    exception.  [abandon] is what happens to the world when a connection
    object is reclaimed without [close] (pending work is rolled back);
    [path_exists] is [os.path.exists]. *)

Inductive outcome (A : Type) : Type :=
| Return (a : A)
| Raise (e : exn).
Arguments Return {A} a.
Arguments Raise {A} e.

(** What [cursor.execute] leaves behind: the column names of the result
    set, its rows in engine order, and [cursor.rowcount]. *)
Record cursor : Type := mkCursor {
  description : list string;
  fetched : list (list value);
  rowcount : Z
}.

Record Engine : Type := mkEngine {
  db : Type;
  connect : string -> db -> db * outcome unit;
  execute : string -> db -> db * outcome cursor;
  executemany : string -> list (list value) -> db -> db * outcome cursor;
  commit : db -> db * outcome unit;
  close : db -> db * outcome unit;
  abandon : db -> db;
  path_exists : string -> db -> bool
}.

(** ** The state-and-exception monad of the module *)

Definition M (S A : Type) : Type := S -> S * outcome A.

Definition ret {S A} (a : A) : M S A := fun s => (s, Return a).

Definition raise {S A} (e : exn) : M S A := fun s => (s, Raise e).

Definition bind {S A B} (m : M S A) (k : A -> M S B) : M S B :=
  fun s =>
    match m s with
    | (s', Return a) => k a s'
    | (s', Raise e) => (s', Raise e)
    end.

Notation "x <- m ;; k" := (bind m (fun x => k))
  (at level 61, m at next level, right associativity).
Notation "m ;;; k" := (bind m (fun _ => k))
  (at level 61, right associativity).

(** A computation that touches no state, only raises or returns. *)
Definition lift {S A} (o : outcome A) : M S A := fun s => (s, o).

(** [try: body  except C as e: handler e], where [C] is the class
    recognised by [catches]. *)
Definition try_except {S A} (body : M S A) (catches : exn -> bool)
    (handler : exn -> M S A) : M S A :=
  fun s =>
    match body s with
    | (s', Return a) => (s', Return a)
    | (s', Raise e) => if catches e then handler e s' else (s', Raise e)
    end.

(** The scope of a local connection object: when the block is left by an
    exception the object is reclaimed unclosed. *)
Definition conn_scope {S A} (reclaim : S -> S) (body : M S A) : M S A :=
  fun s =>
    match body s with
    | (s', Return a) => (s', Return a)
    | (s', Raise e) => (reclaim s', Raise e)
    end.

Fixpoint map_outcome {A B} (f : A -> outcome B) (l : list A) : outcome (list B) :=
  match l with
  | [] => Return []
  | a :: l' =>
      match f a with
      | Raise e => Raise e
      | Return b =>
          match map_outcome f l' with
          | Raise e => Raise e
          | Return bs => Return (b :: bs)
          end
      end
  end.

(** ** [sqlite3.Row] *)

Module Row.

(** The comparison [sqlite3.Row] uses to resolve a column by name: the
    two texts are equal, or both are ASCII and equal without regard to
    letter case. *)
Definition same_key (a b : string) : bool :=
  String.eqb a b
  || (PyStr.is_ascii a && PyStr.is_ascii b && PyStr.eqb_nocase a b).

(** [row[k]] for a string key: the first column whose name matches [k]
    in the sense of [same_key]; [IndexError] when there is none. *)
Fixpoint getitem (names : list string) (vals : list value) (k : string)
  : outcome value :=
  match names, vals with
  | n :: names', v :: vals' =>
      if same_key n k then Return v else getitem names' vals' k
  | _, _ => Raise (OtherException "No item with that key")
  end.

(** [{k: row[k] for k in ks}], started from the dictionary [acc]. *)
Fixpoint comprehend (names : list string) (vals : list value)
    (ks : list string) (acc : record) : outcome record :=
  match ks with
  | [] => Return acc
  | k :: ks' =>
      match getitem names vals k with
      | Raise e => Raise e
      | Return v => comprehend names vals ks' (PyDict.set String.eqb acc k v)
      end
  end.

(** [{k: row[k] for k in row.keys()}] *)
Definition to_dict (names : list string) (vals : list value) : outcome record :=
  comprehend names vals names [].

End Row.

(** [t[i]] on a tuple. *)
Definition tuple_get (t : list value) (i : nat) : outcome value :=
  match nth_error t i with
  | Some v => Return v
  | None => Raise (OtherException "tuple index out of range")
  end.

(** ** The module *)

Definition DB_PATH : string := "dataset_FAO.db".

Section Module.
Variable E : Engine.
Let S := db E.

(** [query.strip().upper().startswith("SELECT")] *)
Definition is_select (query : string) : bool :=
  PyStr.startswith (PyStr.upper (PyStr.strip query)) "SELECT".

Definition error_result (e : exn) : list record :=
  [[("error", VText (exn_text e))]].

(** The body of the [try] block of [execute_sql_query]. *)
Definition query_attempt (query : string) : M S (list record) :=
  connect E DB_PATH ;;;
  conn_scope (abandon E)
    (cur <- execute E query ;;
     result <-
       (if is_select query then
          lift (map_outcome (Row.to_dict (description cur)) (fetched cur))
        else
          let result := [[("affected_rows", VInt (rowcount cur))]] in
          commit E ;;;
          ret result) ;;
     close E ;;;
     ret result).

Definition execute_sql_query (query : string) : M S (list record) :=
  try_except (query_attempt query) is_sqlite_error
    (fun e => ret (error_result e)).

(** *** [init_database] *)

Definition newline : string := String (ascii_of_nat 10) EmptyString.

(** The text of a triple-quoted literal, given line by line. *)
Definition text (lines : list string) : string := String.concat newline lines.

Definition create_customers : string := text [
  "";
  "    CREATE TABLE IF NOT EXISTS customers (";
  "        Area Abbreviation INTEGER PRIMARY KEY,";
  "        Area  TEXT NOT NULL,";
  "        Item TEXT UNIQUE,";
  "        Unit TEXT,";
  "        Year TEXT";
  "    )";
  "    " ].

Definition create_products : string := text [
  "";
  "    CREATE TABLE IF NOT EXISTS products (";
  "        element INTEGER PRIMARY KEY,";
  "        unit TEXT NOT NULL,";
  "        year INTEGER DEFAULT 0";
  "    )";
  "    " ].

Definition create_sales : string := text [
  "";
  "    CREATE TABLE IF NOT EXISTS sales (";
  "        unit INTEGER PRIMARY KEY,";
  "        year INTEGER,";
  "        unit_date TEXT NOT NULL,";
  "        total_amount REAL NOT NULL,";
  "        FOREIGN KEY (area) REFERENCES customers (area)";
  "    )";
  "    " ].

Definition create_unit : string := text [
  "";
  "    CREATE TABLE IF NOT EXISTS unit (";
  "        unit INTEGER PRIMARY KEY,";
  "        year INTEGER,";
  "        latitute INTEGER,";
  "        longitude INTEGER NOT NULL,";
  "        total_per_unit REAL NOT NULL,";
  "        FOREIGN KEY (unit) REFERENCES sales (unit),";
  "        FOREIGN KEY (element) REFERENCES products (element)";
  "    )";
  "    " ].

Definition count_customers : string := "SELECT COUNT(*) FROM customers".

Definition insert_customers : string :=
  "INSERT INTO customers (name, email, phone, address) VALUES (?, ?, ?, ?)".

Definition seed_customers : list (list value) := [
  [VText "John Doe"; VText "john@example.com"; VText "555-1234"; VText "123 Main St"];
  [VText "Jane Smith"; VText "jane@example.com"; VText "555-5678"; VText "456 Oak Ave"];
  [VText "Bob Johnson"; VText "bob@example.com"; VText "555-9012"; VText "789 Pine Rd"];
  [VText "Alice Brown"; VText "alice@example.com"; VText "555-3456"; VText "321 Elm St"];
  [VText "Charlie Davis"; VText "charlie@example.com"; VText "555-7890"; VText "654 Maple Dr"] ].

Definition insert_products : string :=
  "INSERT INTO products (name, description, price, stock_quantity) VALUES (?, ?, ?, ?)".

Definition seed_products : list (list value) := [
  [VText "Laptop"; VText "High-performance laptop"; VReal "1200.0"; VInt 10];
  [VText "Smartphone"; VText "Latest model smartphone"; VReal "800.0"; VInt 15];
  [VText "Tablet"; VText "10-inch tablet"; VReal "300.0"; VInt 20];
  [VText "Headphones"; VText "Noise-cancelling headphones"; VReal "150.0"; VInt 30];
  [VText "Monitor"; VText "27-inch 4K monitor"; VReal "350.0"; VInt 8] ].

Definition insert_sales : string :=
  "INSERT INTO sales (customer_id, sale_date, total_amount) VALUES (?, ?, ?)".

Definition seed_sales : list (list value) := [
  [VInt 1; VText "2013-01-15"; VReal "3200.0"];
  [VInt 2; VText "2003-01-20"; VReal "750.0"];
  [VInt 3; VText "2093-02-05"; VReal "200.0"];
  [VInt 4; VText "2083-02-10"; VReal "600.0"];
  [VInt 5; VText "2073-03-01"; VReal "2550.0"];
  [VInt 1; VText "2063-03-15"; VReal "550.0"];
  [VInt 2; VText "2053-04-02"; VReal "650.0"] ].

Definition insert_unit_items : string :=
  "INSERT INTO unit_items (Area, unit, item, year) VALUES (?, ?, ?, ?)".

Definition seed_unit_items : list (list value) := [
  [VInt 1; VInt 1; VInt 1; VReal "3200.0"];
  [VInt 2; VInt 2; VInt 1; VReal "600.0"];
  [VInt 2; VInt 4; VInt 1; VReal "250.0"];
  [VInt 3; VInt 3; VInt 1; VReal "400.0"];
  [VInt 4; VInt 4; VInt 2; VReal "550.0"];
  [VInt 4; VInt 3; VInt 1; VReal "500.0"];
  [VInt 5; VInt 1; VInt 1; VReal "2200.0"];
  [VInt 5; VInt 4; VInt 1; VReal "450.0"];
  [VInt 5; VInt 5; VInt 1; VReal "500.0"];
  [VInt 6; VInt 4; VInt 1; VReal "250.0"];
  [VInt 7; VInt 5; VInt 1; VReal "350.0"] ].

(** [cursor.fetchone()[0]]: subscripting [None] is a [TypeError]. *)
Definition fetchone_0 (cur : cursor) : outcome value :=
  match fetched cur with
  | [] => Raise (OtherException "'NoneType' object is not subscriptable")
  | row :: _ => tuple_get row 0
  end.

Definition seed_inserts : M S unit :=
  executemany E insert_customers seed_customers ;;;
  executemany E insert_products seed_products ;;;
  executemany E insert_sales seed_sales ;;;
  executemany E insert_unit_items seed_unit_items ;;;
  ret tt.

Definition init_database : M S string :=
  connect E DB_PATH ;;;
  conn_scope (abandon E)
    (execute E create_customers ;;;
     execute E create_products ;;;
     execute E create_sales ;;;
     execute E create_unit ;;;
     cur <- execute E count_customers ;;
     n <- lift (fetchone_0 cur) ;;
     (if equals_zero n then seed_inserts else ret tt) ;;;
     commit E ;;;
     close E ;;;
     ret "Database initialized with sample data.").

(** *** [get_table_schema] *)

(** One entry of the list built for a table: the dictionary with the keys
    [name], [type], [notnull] and [pk]. *)
Record descriptor : Type := mkDescriptor {
  d_name : value;
  d_type : value;
  d_notnull : bool;
  d_pk : bool
}.

(** A value stored in the dictionary [get_table_schema] returns: a list of
    descriptors in the success case, the text of the error otherwise. *)
Inductive schema_entry : Type :=
| Columns (cols : list descriptor)
| ErrorText (msg : string).

Definition schema_dict := list (value * schema_entry).

Definition list_tables : string := "SELECT name FROM sqlite_master WHERE type='table'".

Definition table_info (table_name : value) : string :=
  "PRAGMA table_info(" ++ py_str table_name ++ ")".

Definition describe (col : list value) : outcome descriptor :=
  match tuple_get col 1, tuple_get col 2, tuple_get col 3, tuple_get col 5 with
  | Return n, Return t, Return nn, Return pk =>
      Return (mkDescriptor n t (truthy nn) (truthy pk))
  | Raise e, _, _, _ => Raise e
  | _, Raise e, _, _ => Raise e
  | _, _, Raise e, _ => Raise e
  | _, _, _, Raise e => Raise e
  end.

(** The body of [for table in tables:], from the dictionary built so far. *)
Fixpoint reflect_tables (tables : list (list value)) (schema : schema_dict)
  : M S schema_dict :=
  match tables with
  | [] => ret schema
  | table :: rest =>
      table_name <- lift (tuple_get table 0) ;;
      cur <- execute E (table_info table_name) ;;
      cols <- lift (map_outcome describe (fetched cur)) ;;
      reflect_tables rest (PyDict.set value_eqb schema table_name (Columns cols))
  end.

Definition schema_error (e : exn) : schema_dict :=
  [(VText "error", ErrorText (exn_text e))].

(** The body of the [try] block of [get_table_schema]. *)
Definition schema_attempt : M S schema_dict :=
  connect E DB_PATH ;;;
  conn_scope (abandon E)
    (cur <- execute E list_tables ;;
     schema <- reflect_tables (fetched cur) [] ;;
     close E ;;;
     ret schema).

Definition get_table_schema : M S schema_dict :=
  try_except schema_attempt is_sqlite_error
    (fun e => ret (schema_error e)).

(** *** The two tool entry points *)

(** [if not os.path.exists(DB_PATH): init_database()] *)
Definition ensure_database : M S unit :=
  fun s =>
    if path_exists E DB_PATH s then ret tt s
    else (init_database ;;; ret tt) s.

Record query_result : Type := mkQueryResult {
  query : string;
  results : list record
}.

Definition catch_all (e : exn) : bool := true.

Definition text_to_sql (sql_query : string) : M S query_result :=
  ensure_database ;;;
  try_except
    (results <- execute_sql_query sql_query ;;
     ret (mkQueryResult sql_query results))
    catch_all
    (fun e => ret (mkQueryResult sql_query (error_result e))).

Definition sample_dict := list (value * list record).

Definition sample_query (table_name : value) : string :=
  "SELECT * FROM " ++ py_str table_name ++ " LIMIT 3".

(** The body of [for table_name in schema.keys():]. *)
Fixpoint collect_samples (names : list value) (sample_data : sample_dict)
  : M S sample_dict :=
  match names with
  | [] => ret sample_data
  | table_name :: rest =>
      sample_data' <-
        (if is_str table_name then
           try_except
             (rows <- execute_sql_query (sample_query table_name) ;;
              ret (PyDict.set value_eqb sample_data table_name rows))
             catch_all
             (fun _ => ret sample_data)
         else ret sample_data) ;;
      collect_samples rest sample_data'
  end.

Record database_info : Type := mkDatabaseInfo {
  schema : schema_dict;
  sample_data : sample_dict
}.

(** The keys of the dictionary literal [get_database_info] returns. *)
Definition database_info_keys (info : database_info) : list string :=
  ["schema"; "sample_data"].

Definition get_database_info : M S database_info :=
  ensure_database ;;;
  schema <- get_table_schema ;;
  sample_data <- collect_samples (PyDict.keys schema) [] ;;
  ret (mkDatabaseInfo schema sample_data).

End Module.

(** ** A reference engine

    An executable engine for the statements this module issues, following
    the documented behaviour of SQLite and of Python's [sqlite3] driver:
    identifiers compare without regard to case; [CREATE TABLE IF NOT
    EXISTS] is a no-op on an existing table and otherwise rejects a
    repeated column name and a [FOREIGN KEY] on an undeclared column;
    [INSERT] needs its table and every named column; data-changing
    statements open a transaction that [commit] stores and that is lost
    when the connection goes away first, while other statements take
    effect at once; [rowcount] is [-1] for anything but a data change.
    An [INSERT] checks [NOT NULL], with the default conflict handling and
    with [ON CONFLICT IGNORE].

    The engine is a fragment, and meant as one.  [parse] reads the
    statement forms this module issues; any other text, valid SQL
    included, is answered as a syntax error, and the message of a syntax
    error is not detailed.  Uniqueness of keys and of [UNIQUE] columns,
    the assignment of row ids, the other conflict clauses, triggers and
    generated columns are not modelled.  [sql_abandon] gives the file
    once an unclosed connection has been reclaimed; CPython may keep such
    a connection, its transaction and its lock, alive for a while after
    the exception.  Statements about every state of a database are
    therefore made for any driver, under laws stated as hypotheses; the
    reference engine serves as an instance of them and for examples. *)

Module Sqlite.

Record column : Type := mkColumn {
  c_name : string;
  c_type : string;
  c_notnull : bool;
  c_pk : bool;
  c_default : value;
  c_ignore_null : bool
}.

Record table : Type := mkTable {
  t_name : string;
  t_cols : list column;
  t_rows : list (list value)
}.

Definition database := list table.

(** The file as stored, and the uncommitted image an open transaction
    holds, if any. *)
Record world : Type := mkWorld {
  file_exists : bool;
  stored : database;
  pending : option database
}.

Definition current (w : world) : database :=
  match pending w with Some d => d | None => stored w end.

Definition fresh : world := mkWorld false [] None.

Inductive statement : Type :=
| CreateIfNotExists (name : string) (cols : list column) (fk_cols : list string)
| Count (label : string) (name : string)
| SelectLimit (name : string) (limit : nat)
| ListTables
| TableInfo (name : string)
| Insert (name : string) (cols : list string)
| Several.

Definition same_name : string -> string -> bool := PyStr.eqb_nocase.

Fixpoint find_table (name : string) (d : database) : option table :=
  match d with
  | [] => None
  | t :: d' => if same_name (t_name t) name then Some t else find_table name d'
  end.

Fixpoint update_table (name : string) (f : table -> table) (d : database) : database :=
  match d with
  | [] => []
  | t :: d' =>
      if same_name (t_name t) name then f t :: d' else t :: update_table name f d'
  end.

Fixpoint has_column (name : string) (cols : list column) : bool :=
  match cols with
  | [] => false
  | c :: cols' => same_name (c_name c) name || has_column name cols'
  end.

(** The first column name that repeats an earlier one. *)
Fixpoint repeated_column (seen : list column) (cols : list column) : option string :=
  match cols with
  | [] => None
  | c :: cols' =>
      if has_column (c_name c) seen then Some (c_name c)
      else repeated_column (seen ++ [c])%list cols'
  end.

Fixpoint first_missing (names : list string) (cols : list column) : option string :=
  match names with
  | [] => None
  | n :: names' => if has_column n cols then first_missing names' cols else Some n
  end.

(** [s] without the prefix [p], when it has it. *)
Fixpoint strip_prefix (p s : string) : option string :=
  match p, s with
  | EmptyString, _ => Some s
  | String a p', String b s' => if Ascii.eqb a b then strip_prefix p' s' else None
  | String _ _, EmptyString => None
  end.

(** [s] without the suffix [q], when it has it. *)
Fixpoint strip_suffix (q s : string) : option string :=
  if String.eqb s q then Some EmptyString
  else match s with
       | EmptyString => None
       | String c s' =>
           match strip_suffix q s' with
           | Some r => Some (String c r)
           | None => None
           end
       end.

Definition is_ident_start (c : ascii) : bool :=
  let n := nat_of_ascii c in
  (Nat.leb 65 n && Nat.leb n 90) || (Nat.leb 97 n && Nat.leb n 122) || Nat.eqb n 95
  || Nat.leb 128 n.

Definition is_ident_char (c : ascii) : bool :=
  let n := nat_of_ascii c in
  is_ident_start c || (Nat.leb 48 n && Nat.leb n 57) || Nat.eqb n 36.

Fixpoint all_ident (s : string) : bool :=
  match s with
  | EmptyString => true
  | String c s' => is_ident_char c && all_ident s'
  end.

Definition is_ident (s : string) : bool :=
  match s with
  | EmptyString => false
  | String c _ => is_ident_start c && all_ident s
  end.

(** The keywords SQLite does not read as a bare name. *)
Definition reserved_words : list string := [
  "ADD"; "ALL"; "ALTER"; "AND"; "AS"; "AUTOINCREMENT"; "BETWEEN"; "CASE";
  "CHECK"; "COLLATE"; "COMMIT"; "CONSTRAINT"; "CREATE"; "DEFAULT";
  "DEFERRABLE"; "DELETE"; "DISTINCT"; "DROP"; "ELSE"; "ESCAPE"; "EXCEPT";
  "EXISTS"; "FOREIGN"; "FROM"; "GROUP"; "HAVING"; "IN"; "INDEX"; "INSERT";
  "INTERSECT"; "INTO"; "IS"; "ISNULL"; "JOIN"; "LIMIT"; "NOT"; "NOTHING";
  "NOTNULL"; "NULL"; "ON"; "OR"; "ORDER"; "PRIMARY"; "REFERENCES";
  "RETURNING"; "SELECT"; "SET"; "TABLE"; "THEN"; "TO"; "TRANSACTION";
  "UNION"; "UNIQUE"; "UPDATE"; "USING"; "VALUES"; "WHEN"; "WHERE" ].

(** The reserved words a PRAGMA nevertheless takes as its argument. *)
Definition pragma_words : list string := ["DEFAULT"; "DELETE"; "ON"].

Definition among (words : list string) (s : string) : bool :=
  existsb (String.eqb (PyStr.upper s)) words.

(** A bare table name after FROM. *)
Definition is_table_name (s : string) : bool :=
  is_ident s && negb (among reserved_words s).

(** A bare argument of [PRAGMA table_info(...)]. *)
Definition is_pragma_arg (s : string) : bool :=
  is_ident s && (negb (among reserved_words s) || among pragma_words s).

(** A semicolon followed by anything but white space. *)
Fixpoint has_second_statement (s : string) : bool :=
  match s with
  | EmptyString => false
  | String c s' =>
      if Ascii.eqb c ";"%char
      then negb (String.eqb (PyStr.strip s') EmptyString) || has_second_statement s'
      else has_second_statement s'
  end.

(** The four table definitions of [init_database] as SQLite reads them.
    In [customers] the first definition is a column [Area] of declared
    type [Abbreviation INTEGER]. *)
Definition customers_columns : list column := [
  mkColumn "Area" "Abbreviation INTEGER" false true VNone false;
  mkColumn "Area" "TEXT" true false VNone false;
  mkColumn "Item" "TEXT" false false VNone false;
  mkColumn "Unit" "TEXT" false false VNone false;
  mkColumn "Year" "TEXT" false false VNone false ].

Definition products_columns : list column := [
  mkColumn "element" "INTEGER" false true VNone false;
  mkColumn "unit" "TEXT" true false VNone false;
  mkColumn "year" "INTEGER" false false (VInt 0) false ].

Definition sales_columns : list column := [
  mkColumn "unit" "INTEGER" false true VNone false;
  mkColumn "year" "INTEGER" false false VNone false;
  mkColumn "unit_date" "TEXT" true false VNone false;
  mkColumn "total_amount" "REAL" true false VNone false ].

Definition unit_columns : list column := [
  mkColumn "unit" "INTEGER" false true VNone false;
  mkColumn "year" "INTEGER" false false VNone false;
  mkColumn "latitute" "INTEGER" false false VNone false;
  mkColumn "longitude" "INTEGER" true false VNone false;
  mkColumn "total_per_unit" "REAL" true false VNone false ].

Definition known_statements : list (string * statement) := [
  (create_customers, CreateIfNotExists "customers" customers_columns []);
  (create_products, CreateIfNotExists "products" products_columns []);
  (create_sales, CreateIfNotExists "sales" sales_columns ["area"]);
  (create_unit, CreateIfNotExists "unit" unit_columns ["unit"; "element"]);
  (insert_customers, Insert "customers" ["name"; "email"; "phone"; "address"]);
  (insert_products, Insert "products" ["name"; "description"; "price"; "stock_quantity"]);
  (insert_sales, Insert "sales" ["customer_id"; "sale_date"; "total_amount"]);
  (insert_unit_items, Insert "unit_items" ["Area"; "unit"; "item"; "year"]);
  (list_tables, ListTables) ].

Definition named (accepts : string -> bool) (build : string -> statement)
    (name : string) : option statement :=
  if accepts name then Some (build name) else None.

Definition between (before after sql : string) : option string :=
  match strip_prefix before sql with
  | Some rest => strip_suffix after rest
  | None => None
  end.

(** The statement forms the engine reads; [None] is a syntax error. *)
Definition parse (sql : string) : option statement :=
  if has_second_statement sql then Some Several else
  match PyDict.get String.eqb known_statements sql with
  | Some st => Some st
  | None =>
  match between "SELECT COUNT(*) FROM " "" sql with
  | Some name => named is_table_name (Count "COUNT(*)") name
  | None =>
  match between "SELECT COUNT(*) AS c FROM " "" sql with
  | Some name => named is_table_name (Count "c") name
  | None =>
  match between "SELECT * FROM " " LIMIT 3" sql with
  | Some name => named is_table_name (fun n => SelectLimit n 3) name
  | None =>
  match between "PRAGMA table_info(" ")" sql with
  | Some name => named is_pragma_arg TableInfo name
  | None => None
  end end end end end.

Definition dquote : string := String (ascii_of_nat 34) EmptyString.

Definition no_rows : cursor := mkCursor [] [] (-1).

Definition failed (w : world) (msg : string) : world * outcome cursor :=
  (w, Raise (SqliteError msg)).

(** A change made outside a transaction is stored at once. *)
Definition apply_now (w : world) (d : database) : world :=
  match pending w with
  | Some _ => mkWorld (file_exists w) (stored w) (Some d)
  | None => mkWorld (file_exists w) d None
  end.

(** A data change opens a transaction, or continues the open one. *)
Definition apply_pending (w : world) (d : database) : world :=
  mkWorld (file_exists w) (stored w) (Some d).

(** The value bound to the column [name], or [dflt] when the statement
    does not name it. *)
Fixpoint bound_value (cols : list string) (vals : list value) (name : string)
    (dflt : value) : value :=
  match cols, vals with
  | c :: cols', v :: vals' =>
      if same_name c name then v else bound_value cols' vals' name dflt
  | _, _ => dflt
  end.

Definition place (cols : list string) (into : list column) (vals : list value)
  : list value :=
  map (fun c => bound_value cols vals (c_name c) (c_default c)) into.

(** A column declared [INTEGER PRIMARY KEY] names the row id, which
    SQLite supplies when the statement leaves it out. *)
Definition is_rowid_alias (c : column) : bool :=
  c_pk c && String.eqb (PyStr.upper (c_type c)) "INTEGER".

(** [v] leaves the [NOT NULL] column [c] without a value. *)
Definition lacks_value (c : column) (v : value) : bool :=
  c_notnull c && negb (is_rowid_alias c)
  && match v with VNone => true | _ => false end.

(** The first [NOT NULL] column a row leaves without a value. *)
Fixpoint null_conflict (cols : list column) (row : list value) : option column :=
  match cols, row with
  | c :: cols', v :: row' =>
      if lacks_value c v then Some c else null_conflict cols' row'
  | _, _ => None
  end.

(** The rows of an [INSERT] that are stored: a row in conflict with a
    [NOT NULL ... ON CONFLICT IGNORE] column is passed over, one in
    conflict with a plain [NOT NULL] column fails the statement. *)
Fixpoint admitted (table_name : string) (cols : list column)
    (rows : list (list value)) : outcome (list (list value)) :=
  match rows with
  | [] => Return []
  | row :: rows' =>
      match null_conflict cols row with
      | Some c =>
          if c_ignore_null c then admitted table_name cols rows'
          else Raise (SqliteError ("NOT NULL constraint failed: "
                                   ++ table_name ++ "." ++ c_name c))
      | None =>
          match admitted table_name cols rows' with
          | Return kept => Return (row :: kept)
          | Raise e => Raise e
          end
      end
  end.

Definition add_rows (rows : list (list value)) (t : table) : table :=
  mkTable (t_name t) (t_cols t) (t_rows t ++ rows)%list.

Definition info_row (cid : nat) (c : column) : list value :=
  [VInt (Z.of_nat cid); VText (c_name c); VText (c_type c);
   VInt (if c_notnull c then 1 else 0);
   match c_default c with VNone => VNone | v => VText (py_str v) end;
   VInt (if c_pk c then 1 else 0)].

Fixpoint info_rows (cid : nat) (cols : list column) : list (list value) :=
  match cols with
  | [] => []
  | c :: cols' => info_row cid c :: info_rows (Datatypes.S cid) cols'
  end.

Definition info_header : list string :=
  ["cid"; "name"; "type"; "notnull"; "dflt_value"; "pk"].

Definition arity_ok (cols : list string) (params : list (list value)) : bool :=
  forallb (fun p => Nat.eqb (length p) (length cols)) params.

Definition run (st : statement) (params : list (list value)) (w : world)
  : world * outcome cursor :=
  match st with
  | Several => failed w "You can only execute one statement at a time."
  | CreateIfNotExists name cols fk_cols =>
      match find_table name (current w) with
      | Some _ => (w, Return no_rows)
      | None =>
          match repeated_column [] cols with
          | Some c => failed w ("duplicate column name: " ++ c)
          | None =>
              match first_missing fk_cols cols with
              | Some c =>
                  failed w ("unknown column " ++ dquote ++ c ++ dquote
                            ++ " in foreign key definition")
              | None =>
                  (apply_now w (current w ++ [mkTable name cols []])%list, Return no_rows)
              end
          end
      end
  | Count label name =>
      match find_table name (current w) with
      | None => failed w ("no such table: " ++ name)
      | Some t =>
          (w, Return (mkCursor [label] [[VInt (Z.of_nat (length (t_rows t)))]] (-1)))
      end
  | SelectLimit name limit =>
      match find_table name (current w) with
      | None => failed w ("no such table: " ++ name)
      | Some t =>
          (w, Return (mkCursor (map c_name (t_cols t)) (firstn limit (t_rows t)) (-1)))
      end
  | ListTables =>
      (w, Return (mkCursor ["name"] (map (fun t => [VText (t_name t)]) (current w)) (-1)))
  | TableInfo name =>
      match find_table name (current w) with
      | None => (w, Return (mkCursor info_header [] (-1)))
      | Some t => (w, Return (mkCursor info_header (info_rows 0 (t_cols t)) (-1)))
      end
  | Insert name cols =>
      match find_table name (current w) with
      | None => failed w ("no such table: " ++ name)
      | Some t =>
          match first_missing cols (t_cols t) with
          | Some c => failed w ("table " ++ name ++ " has no column named " ++ c)
          | None =>
              if arity_ok cols params then
                match admitted (t_name t) (t_cols t)
                        (map (place cols (t_cols t)) params) with
                | Raise e => (w, Raise e)
                | Return kept =>
                    (apply_pending w
                       (update_table name (add_rows kept) (current w)),
                     Return (mkCursor [] [] (Z.of_nat (length kept))))
                end
              else failed w "Incorrect number of bindings supplied."
          end
      end
  end.

Definition is_insert (st : statement) : bool :=
  match st with Insert _ _ => true | _ => false end.

Definition sql_execute (sql : string) (w : world) : world * outcome cursor :=
  match parse sql with
  | None => failed w "syntax error"
  | Some st => run st [[]] w
  end.

Definition sql_executemany (sql : string) (params : list (list value)) (w : world)
  : world * outcome cursor :=
  match parse sql with
  | None => failed w "syntax error"
  | Some st =>
      if is_insert st then run st params w
      else failed w "executemany() can only execute DML statements."
  end.

Definition sql_connect (path : string) (w : world) : world * outcome unit :=
  (mkWorld true (stored w) None, Return tt).

Definition sql_commit (w : world) : world * outcome unit :=
  (mkWorld (file_exists w) (current w) None, Return tt).

Definition sql_abandon (w : world) : world :=
  mkWorld (file_exists w) (stored w) None.

Definition sql_close (w : world) : world * outcome unit := (sql_abandon w, Return tt).

Definition sql_path_exists (path : string) (w : world) : bool := file_exists w.

Definition engine : Engine :=
  mkEngine world sql_connect sql_execute sql_executemany sql_commit sql_close
    sql_abandon sql_path_exists.

(** The driver of Python releases up to 3.10, which reported a text
    holding more than one statement with [sqlite3.Warning], a direct
    subclass of [Exception] and not an [sqlite3.Error]; later releases
    raise [sqlite3.ProgrammingError], as [engine] does. *)
Definition legacy_execute (sql : string) (w : world) : world * outcome cursor :=
  if has_second_statement sql
  then (w, Raise (OtherException "You can only execute one statement at a time."))
  else sql_execute sql w.

Definition legacy_engine : Engine :=
  mkEngine world sql_connect legacy_execute sql_executemany sql_commit sql_close
    sql_abandon sql_path_exists.

(** The table [create_products] makes. *)
Definition products_table : table := mkTable "products" products_columns [].

(** A world at rest: the file exists and no connection is open. *)
Definition at_rest (d : database) : world := mkWorld true d None.

(** The rows a database holds under a table name; none when it has no
    such table. *)
Definition rows_of (name : string) (d : database) : list (list value) :=
  match find_table name d with
  | Some t => t_rows t
  | None => []
  end.

(** No transaction is open. *)
Definition idle (w : world) : Prop := pending w = None.

(** The stored rows of the tables [names], table by table. *)
Definition snapshot (names : list string) (w : world) : list (list (list value)) :=
  map (fun n => rows_of n (stored w)) names.

(** The number of rows of the first table of a snapshot. *)
Definition first_count (o : list (list (list value))) : Z :=
  Z.of_nat (length (hd [] o)).

(** The number of rows the stored file holds in [customers]. *)
Definition stored_customers (w : world) : option nat :=
  match find_table "customers" (stored w) with
  | Some t => Some (length (t_rows t))
  | None => None
  end.

End Sqlite.


(** ** Auxiliary notions for the statements *)



(** [m] keeps the property [P] of the state, however it ends. *)
Definition preserves {S A} (P : S -> Prop) (m : M S A) : Prop :=
  forall s s' r, m s = (s', r) -> P s -> P s'.

(** When [m] returns, the state has the property [P]. *)
Definition returns_in {S A} (P : S -> Prop) (m : M S A) : Prop :=
  forall s s' a, m s = (s', Return a) -> P s'.

(** No work is pending and the rows are those of [o]. *)
Definition quiet {S O} (obs : S -> O) (idle : S -> Prop) (o : O) (s : S) : Prop :=
  idle s /\ obs s = o.

(** The four table definitions of [init_database], in program order. *)
Definition table_statements : list string :=
  [create_customers; create_products; create_sales; create_unit].

(** The sample data as the description of [get_database_info] has it:
    going through the names in order, each string name is queried through
    the executor, and what the executor returns is kept under the name; a
    name whose query raises is left out. *)
Fixpoint samples_by_the_words (E : Engine) (names : list value) (s : db E)
  : db E * sample_dict :=
  match names with
  | [] => (s, [])
  | k :: rest =>
      if is_str k then
        match execute_sql_query E (sample_query k) s with
        | (s', Return rows) =>
            let (s'', sd) := samples_by_the_words E rest s' in
            (s'', (k, rows) :: sd)
        | (s', Raise _) => samples_by_the_words E rest s'
        end
      else samples_by_the_words E rest s
  end.

(** A text made of white space only. *)
Fixpoint all_space (s : string) : bool :=
  match s with
  | EmptyString => true
  | String c s' => PyStr.is_space c && all_space s'
  end.

(** No character of [p] is white space. *)
Fixpoint no_space (p : string) : bool :=
  match p with
  | EmptyString => true
  | String a p' => negb (PyStr.is_space a) && no_space p'
  end.





(** ** Sample databases *)

Module Samples.

(** A stored file holding only [products], with four rows. *)
Definition shop : Sqlite.world :=
  Sqlite.mkWorld true
    [Sqlite.mkTable "products" Sqlite.products_columns
       [[VInt 1; VText "kg"; VInt 2013];
        [VInt 2; VText "kg"; VInt 2014];
        [VInt 3; VText "t"; VInt 2015];
        [VInt 4; VText "t"; VInt 2016]]]
    None.

(** A stored file whose one table has a name that is not a bare
    identifier, as [CREATE TABLE "line-items" (...)] makes it. *)
Definition dashed : Sqlite.world :=
  Sqlite.mkWorld true
    [Sqlite.mkTable "line-items" [Sqlite.mkColumn "id" "INTEGER" false true VNone false] []]
    None.

(** A stored file whose one table bears a reserved word as its name, as
    [CREATE TABLE "default" (x)] makes it: [PRAGMA table_info(default)]
    is accepted, [SELECT * FROM default LIMIT 3] is a syntax error. *)
Definition keyword : Sqlite.world :=
  Sqlite.mkWorld true
    [Sqlite.mkTable "default" [Sqlite.mkColumn "x" "" false false VNone false] [[VInt 1]]]
    None.

(** A stored file in which the tables the seed statements name exist with
    the columns those statements name, all empty. *)
Definition matching : Sqlite.world :=
  let col n := Sqlite.mkColumn n "" false false VNone false in
  Sqlite.mkWorld true
    [Sqlite.mkTable "customers" (map col ["name"; "email"; "phone"; "address"]) [];
     Sqlite.mkTable "products"
       (map col ["name"; "description"; "price"; "stock_quantity"]) [];
     Sqlite.mkTable "sales" (map col ["customer_id"; "sale_date"; "total_amount"]) [];
     Sqlite.mkTable "unit" (map col ["unit"]) [];
     Sqlite.mkTable "unit_items" (map col ["Area"; "unit"; "item"; "year"]) []]
    None.

(** The file [matching] with one more column in [customers], declared
    [region TEXT NOT NULL ON CONFLICT IGNORE]: a seed row, which gives no
    region, is passed over without an error. *)
Definition ignoring : Sqlite.world :=
  let col n := Sqlite.mkColumn n "" false false VNone false in
  Sqlite.mkWorld true
    [Sqlite.mkTable "customers"
       (map col ["name"; "email"; "phone"; "address"]
        ++ [Sqlite.mkColumn "region" "TEXT" true false VNone true])%list [];
     Sqlite.mkTable "products"
       (map col ["name"; "description"; "price"; "stock_quantity"]) [];
     Sqlite.mkTable "sales" (map col ["customer_id"; "sale_date"; "total_amount"]) [];
     Sqlite.mkTable "unit" (map col ["unit"]) [];
     Sqlite.mkTable "unit_items" (map col ["Area"; "unit"; "item"; "year"]) []]
    None.

(** The seed tables other than [customers]. *)
Definition watched : list string := ["products"; "sales"; "unit_items"].

End Samples.

(** ** Properties of the query executor *)

Section Executor.
Variable E : Engine.

Lemma try_except_return {A} (body : M (db E) A) catches handler s s' a :
  body s = (s', Return a) -> try_except body catches handler s = (s', Return a).
Proof. unfold try_except; intros ->; reflexivity. Qed.

Lemma try_except_caught {A} (body : M (db E) A) catches handler s s' e :
  body s = (s', Raise e) -> catches e = true ->
  try_except body catches handler s = handler e s'.
Proof. unfold try_except; intros -> ->; reflexivity. Qed.

Lemma try_except_escapes {A} (body : M (db E) A) catches handler s s' e :
  body s = (s', Raise e) -> catches e = false ->
  try_except body catches handler s = (s', Raise e).
Proof. unfold try_except; intros -> ->; reflexivity. Qed.

(** C7 (as amended).  Whatever the statement and the database, the
    executor turns every [sqlite3.Error] raised inside its [try] block
    into the one-element result [[{"error": text}]] and returns normally;
    an exception of any other class leaves the function unchanged; a
    normal result is passed on as it is. *)
Theorem execute_sql_query_boundary (q : string) (s : db E) :
  match query_attempt E q s with
  | (s', Raise (SqliteError m)) =>
      execute_sql_query E q s = (s', Return [[("error", VText m)]])
  | (s', Raise (OtherException m)) =>
      execute_sql_query E q s = (s', Raise (OtherException m))
  | (s', Return rows) => execute_sql_query E q s = (s', Return rows)
  end.
Proof.
  unfold execute_sql_query, try_except.
  destruct (query_attempt E q s) as [s' [rows | [m | m]]]; reflexivity.
Qed.

End Executor.

(** C7, refuted as stated: when the driver raises an exception that is not
    an [sqlite3.Error], the executor lets it through.  The driver of
    Python 3.10 does so for a text holding two statements; the current
    driver turns the same text into an error record. *)
Lemma execute_sql_query_can_raise :
  snd (execute_sql_query Sqlite.legacy_engine "SELECT 1; SELECT 2" Sqlite.fresh)
  = Raise (OtherException "You can only execute one statement at a time.")
  /\ snd (execute_sql_query Sqlite.engine "SELECT 1; SELECT 2" Sqlite.fresh)
     = Return [[("error", VText "You can only execute one statement at a time.")]].
Proof. split; vm_compute; reflexivity. Qed.

(** ** Rows as dictionaries *)

Section RowFacts.













End RowFacts.

(** ** The two result shapes of the executor *)

Section Shapes.
Variable E : Engine.

Lemma map_outcome_Forall2 {A B} (f : A -> outcome B) : forall l bs,
  map_outcome f l = Return bs -> Forall2 (fun a b => f a = Return b) l bs.
Proof.
  induction l as [| a l IH]; simpl; intros bs H.
  - inversion H. constructor.
  - destruct (f a) as [b | e] eqn:Hf; [| discriminate].
    destruct (map_outcome f l) as [bs' | e]; [| discriminate].
    inversion H; subst. constructor; auto.
Qed.


Lemma query_attempt_write q s s1 s2 s3 s4 cur :
  connect E DB_PATH s = (s1, Return tt) ->
  execute E q s1 = (s2, Return cur) ->
  is_select q = false ->
  commit E s2 = (s3, Return tt) ->
  close E s3 = (s4, Return tt) ->
  query_attempt E q s = (s4, Return [[("affected_rows", VInt (rowcount cur))]]).
Proof.
  intros Hc He Hs Hm Hl. unfold query_attempt, bind, conn_scope, ret.
  now rewrite Hc, He, Hs, Hm, Hl.
Qed.



(** C9.  For a statement that is not classified as a read, the value
    reported under ["affected_rows"] is the cursor's [rowcount] as the
    driver left it, whatever its sign: with a [rowcount] of [-1] the
    caller receives [[{"affected_rows": -1}]]. *)
Theorem affected_rows_is_raw_rowcount (q : string) (s s1 s2 s3 s4 : db E)
    (cur : cursor) (n : Z) :
  is_select q = false ->
  connect E DB_PATH s = (s1, Return tt) ->
  execute E q s1 = (s2, Return cur) ->
  commit E s2 = (s3, Return tt) ->
  close E s3 = (s4, Return tt) ->
  rowcount cur = n ->
  snd (execute_sql_query E q s) = Return [[("affected_rows", VInt n)]]
  /\ (n = -1 ->
      exists v, snd (execute_sql_query E q s) = Return [[("affected_rows", VInt v)]]
                /\ v < 0).
Proof.
  intros Hs Hc He Hm Hl Hn.
  assert (H : execute_sql_query E q s = (s4, Return [[("affected_rows", VInt n)]])).
  { unfold execute_sql_query. apply try_except_return. rewrite <- Hn.
    eapply query_attempt_write; eassumption. }
  rewrite H. split; [reflexivity |].
  intros ->. exists (-1). split; [reflexivity | lia].
Qed.


End Shapes.


(** C9 on the reference engine: creating a table reports [-1]. *)
Lemma affected_rows_is_raw_rowcount_witness :
  snd (execute_sql_query Sqlite.engine create_products Sqlite.fresh)
  = Return [[("affected_rows", VInt (-1))]].
Proof.
  pose (s1 := fst (Sqlite.sql_connect DB_PATH Sqlite.fresh)).
  pose (s2 := fst (Sqlite.sql_execute create_products s1)).
  apply (affected_rows_is_raw_rowcount Sqlite.engine create_products
           Sqlite.fresh s1 s2 s2 s2 Sqlite.no_rows (-1));
    reflexivity.
Defined.


(** ** The execute-query entry point *)

Section Facade.
Variable E : Engine.

(** C3 (as amended).  When the database file exists, or when it is missing
    and the Initializer returns, [text_to_sql] returns the record that
    echoes the query and whose results are what the executor returned
    or, for any exception the executor raises, the one-element error
    record [[{"error": text}]] with the text of that exception: nothing
    raised by the executor reaches the caller.  When the file is missing
    and the Initializer raises, that exception is outside the [try] block
    and reaches the caller unchanged. *)
Theorem text_to_sql_boundary (q : string) (s : db E) :
  let guarded s0 :=
    (fst (execute_sql_query E q s0),
     Return (mkQueryResult q
               match snd (execute_sql_query E q s0) with
               | Return rows => rows
               | Raise e => [[("error", VText (exn_text e))]]
               end)) in
  if path_exists E DB_PATH s then text_to_sql E q s = guarded s
  else
    match init_database E s with
    | (s1, Raise e) => text_to_sql E q s = (s1, Raise e)
    | (s1, Return _) => text_to_sql E q s = guarded s1
    end.
Proof.
  assert (Hg : forall s0,
    try_except
      (results <- execute_sql_query E q ;; ret (mkQueryResult q results))
      catch_all
      (fun e => ret (mkQueryResult q (error_result e))) s0
    = (fst (execute_sql_query E q s0),
       Return (mkQueryResult q
                 match snd (execute_sql_query E q s0) with
                 | Return rows => rows
                 | Raise e => [[("error", VText (exn_text e))]]
                 end))).
  { intros s0. unfold try_except, bind, ret, catch_all.
    destruct (execute_sql_query E q s0) as [s1 [rows | e]]; reflexivity. }
  cbv zeta. unfold text_to_sql, ensure_database.
  destruct (path_exists E DB_PATH s) eqn:Hp.
  - unfold bind at 1. rewrite Hp. apply Hg.
  - destruct (init_database E s) as [s1 [msg | e]] eqn:Hi.
    + unfold bind at 1. rewrite Hp. unfold bind at 1. rewrite Hi. apply Hg.
    + unfold bind at 1. rewrite Hp. unfold bind at 1. now rewrite Hi.
Qed.

End Facade.

(** C3, refuted as stated: with no database file the reference engine
    rejects the first table definition of the Initializer, and
    [text_to_sql] raises that error instead of returning a record. *)
Lemma text_to_sql_initializer_escapes :
  snd (text_to_sql Sqlite.engine "SELECT 1" Sqlite.fresh)
  = Raise (SqliteError "duplicate column name: Area").
Proof. vm_compute. reflexivity. Qed.

(** ** The schema reflector *)

Lemma value_eqb_eq (a b : value) : value_eqb a b = true <-> a = b.
Proof.
  destruct a, b; simpl; split; intros H; try discriminate; try reflexivity;
    try (apply Z.eqb_eq in H; now subst);
    try (apply String.eqb_eq in H; now subst);
    inversion H; subst;
    try apply Z.eqb_refl; apply String.eqb_refl.
Qed.

Lemma in_set_value {V} (d : list (value * V)) k v : forall k' v',
  In (k', v') (PyDict.set value_eqb d k v) ->
  In (k', v') d \/ (k' = k /\ v' = v).
Proof.
  induction d as [| [k0 v0] d IH]; simpl; intros k' v' H.
  - destruct H as [H | []]. inversion H. now right.
  - destruct (value_eqb k0 k) eqn:Hk.
    + apply value_eqb_eq in Hk. subst k0.
      destruct H as [H | H]; [inversion H; now right | left; now right].
    + destruct H as [H | H]; [left; now left |].
      destruct (IH _ _ H) as [H' | H']; [left; now right | now right].
Qed.

Lemma keys_set_value {V} (d : list (value * V)) k v : forall k',
  In k' (PyDict.keys (PyDict.set value_eqb d k v)) <-> In k' (PyDict.keys d) \/ k' = k.
Proof.
  unfold PyDict.keys.
  induction d as [| [k0 v0] d IH]; simpl; intros k'.
  - intuition.
  - destruct (value_eqb k0 k) eqn:Hk; simpl.
    + apply value_eqb_eq in Hk. subst k0. intuition.
    + rewrite IH. intuition.
Qed.


Section Reflector.
Variable E : Engine.




End Reflector.


(** ** The database-info entry point *)

Section Info.
Variable E : Engine.

Lemma collect_samples_str k rest sd s :
  is_str k = true ->
  collect_samples E (k :: rest) sd s
  = match execute_sql_query E (sample_query k) s with
    | (s', Return rows) =>
        collect_samples E rest (PyDict.set value_eqb sd k rows) s'
    | (s', Raise _) => collect_samples E rest sd s'
    end.
Proof.
  intros Hk. simpl. rewrite Hk. unfold bind at 1, try_except, bind, ret, catch_all.
  destruct (execute_sql_query E (sample_query k) s) as [s' [rows | e]]; reflexivity.
Qed.

Lemma collect_samples_other k rest sd s :
  is_str k = false ->
  collect_samples E (k :: rest) sd s = collect_samples E rest sd s.
Proof. intros Hk. simpl. rewrite Hk. reflexivity. Qed.

Lemma collect_samples_returns : forall names sd s,
  exists s' sd', collect_samples E names sd s = (s', Return sd').
Proof.
  induction names as [| k rest IH]; intros sd s.
  - simpl. unfold ret. eauto.
  - destruct (is_str k) eqn:Hk.
    + rewrite collect_samples_str by assumption.
      destruct (execute_sql_query E (sample_query k) s) as [s' [rows | e]]; apply IH.
    + rewrite collect_samples_other by assumption. apply IH.
Qed.

Lemma collect_samples_keeps : forall names sd s s' sd' k,
  collect_samples E names sd s = (s', Return sd') ->
  In k (PyDict.keys sd) -> In k (PyDict.keys sd').
Proof.
  induction names as [| n rest IH]; intros sd s s' sd' k H Hin.
  - simpl in H. inversion H; subst. assumption.
  - destruct (is_str n) eqn:Hn.
    + rewrite collect_samples_str in H by assumption.
      destruct (execute_sql_query E (sample_query n) s) as [s1 [rows | e]].
      * eapply IH; [exact H |]. apply keys_set_value. now left.
      * eapply IH; eassumption.
    + rewrite collect_samples_other in H by assumption. eapply IH; eassumption.
Qed.

Lemma collect_samples_only : forall names sd s s' sd' k,
  collect_samples E names sd s = (s', Return sd') ->
  In k (PyDict.keys sd') ->
  In k (PyDict.keys sd) \/ (In k names /\ is_str k = true).
Proof.
  induction names as [| n rest IH]; intros sd s s' sd' k H Hin.
  - simpl in H. inversion H; subst. now left.
  - destruct (is_str n) eqn:Hn.
    + rewrite collect_samples_str in H by assumption.
      destruct (execute_sql_query E (sample_query n) s) as [s1 [rows | e]].
      * destruct (IH _ _ _ _ _ H Hin) as [Hk | [Hk Hs]].
        -- apply keys_set_value in Hk. destruct Hk as [Hk | ->]; [now left |].
           right. split; [now left | assumption].
        -- right. split; [now right | assumption].
      * destruct (IH _ _ _ _ _ H Hin) as [Hk | [Hk Hs]]; [now left |].
        right. split; [now right | assumption].
    + rewrite collect_samples_other in H by assumption.
      destruct (IH _ _ _ _ _ H Hin) as [Hk | [Hk Hs]]; [now left |].
      right. split; [now right | assumption].
Qed.

Lemma collect_samples_stores : forall names sd s s' sd' k,
  collect_samples E names sd s = (s', Return sd') ->
  In k names -> is_str k = true ->
  (forall st, exists st' rows,
      execute_sql_query E (sample_query k) st = (st', Return rows)) ->
  In k (PyDict.keys sd').
Proof.
  induction names as [| n rest IH]; intros sd s s' sd' k H Hin Hk Hret;
    [contradiction |].
  destruct Hin as [-> | Hin].
  - rewrite collect_samples_str in H by assumption.
    destruct (Hret s) as [st' [rows Hq]]. rewrite Hq in H.
    eapply collect_samples_keeps; [exact H |]. apply keys_set_value. now right.
  - destruct (is_str n) eqn:Hn.
    + rewrite collect_samples_str in H by assumption.
      destruct (execute_sql_query E (sample_query n) s) as [s1 [rows | e]];
        eapply IH; eassumption.
    + rewrite collect_samples_other in H by assumption. eapply IH; eassumption.
Qed.

Lemma set_value_fresh {V} (d : list (value * V)) k v :
  ~ In k (PyDict.keys d) ->
  PyDict.set value_eqb d k v = (d ++ [(k, v)])%list.
Proof.
  unfold PyDict.keys. induction d as [| [k0 v0] d IH]; simpl; intros Hn.
  - reflexivity.
  - destruct (value_eqb k0 k) eqn:Hk.
    + apply value_eqb_eq in Hk. subst. exfalso. apply Hn. now left.
    + f_equal. apply IH. intros Hin. apply Hn. now right.
Qed.

Lemma keys_set_nodup {V} (d : list (value * V)) k v :
  NoDup (PyDict.keys d) -> NoDup (PyDict.keys (PyDict.set value_eqb d k v)).
Proof.
  unfold PyDict.keys. induction d as [| [k0 v0] d IH]; simpl; intros Hd.
  - repeat constructor. intros [].
  - inversion Hd as [| ? ? Hk0 Hd']; subst.
    destruct (value_eqb k0 k) eqn:Hk; simpl.
    + constructor; assumption.
    + constructor; [| now apply IH].
      intros Hin. apply (keys_set_value d k v k0) in Hin.
      destruct Hin as [Hin | ->]; [contradiction |].
      assert (value_eqb k k = true) by now apply value_eqb_eq. congruence.
Qed.

Lemma reflect_tables_nodup : forall tables acc s s' sch,
  NoDup (PyDict.keys acc) ->
  reflect_tables E tables acc s = (s', Return sch) ->
  NoDup (PyDict.keys sch).
Proof.
  induction tables as [| table rest IH]; simpl; intros acc s s' sch Hd H.
  - inversion H; now subst.
  - unfold bind, lift in H.
    destruct (tuple_get table 0) as [name | e]; [| discriminate].
    destruct (execute E (table_info name) s) as [s1 [c | e]]; [| discriminate].
    destruct (map_outcome describe (fetched c)) as [cols | e]; [| discriminate].
    apply (IH _ _ _ _ (keys_set_nodup acc name (Columns cols) Hd) H).
Qed.

Lemma get_table_schema_nodup s s' sch :
  get_table_schema E s = (s', Return sch) -> NoDup (PyDict.keys sch).
Proof.
  unfold get_table_schema, try_except, schema_attempt, bind, conn_scope, ret.
  destruct (connect E DB_PATH s) as [s1 [[] | e]].
  - destruct (execute E list_tables s1) as [s2 [cur | e]].
    + destruct (reflect_tables E (fetched cur) [] s2) as [s3 [sch0 | e]] eqn:Hr.
      * destruct (close E s3) as [s4 [[] | e]].
        -- intros H. inversion H; subst.
           apply (reflect_tables_nodup _ [] _ _ _ (NoDup_nil _) Hr).
        -- destruct (is_sqlite_error e); intros H; inversion H; subst.
           repeat constructor. intros [].
      * destruct (is_sqlite_error e); intros H; inversion H; subst.
        repeat constructor. intros [].
    + destruct (is_sqlite_error e); intros H; inversion H; subst.
      repeat constructor. intros [].
  - destruct (is_sqlite_error e); intros H; inversion H; subst.
    repeat constructor. intros [].
Qed.

Lemma collect_samples_by_the_words : forall names acc s,
  NoDup (PyDict.keys acc ++ names) ->
  collect_samples E names acc s
  = (fst (samples_by_the_words E names s),
     Return (acc ++ snd (samples_by_the_words E names s))%list).
Proof.
  induction names as [| k rest IH]; intros acc s Hd.
  - simpl. unfold ret. now rewrite app_nil_r.
  - assert (Hfresh : ~ In k (PyDict.keys acc)).
    { apply NoDup_remove_2 in Hd. intros Hin. apply Hd, in_or_app. now left. }
    assert (Hrest : NoDup (PyDict.keys acc ++ rest)).
    { now apply NoDup_remove_1 in Hd. }
    destruct (is_str k) eqn:Hk.
    + rewrite collect_samples_str by assumption. simpl samples_by_the_words.
      rewrite Hk.
      destruct (execute_sql_query E (sample_query k) s) as [s' [rows | e]].
      * rewrite set_value_fresh by assumption. rewrite IH.
        -- destruct (samples_by_the_words E rest s') as [s'' sd]. simpl.
           now rewrite <- app_assoc.
        -- unfold PyDict.keys. rewrite map_app. simpl.
           rewrite <- app_assoc. exact Hd.
      * now apply IH.
    + rewrite collect_samples_other by assumption. simpl samples_by_the_words.
      rewrite Hk. now apply IH.
Qed.

Lemma collect_samples_provenance : forall names acc s s' sd,
  collect_samples E names acc s = (s', Return sd) ->
  forall k rows, In (k, rows) sd ->
    In (k, rows) acc \/
    exists st st', execute_sql_query E (sample_query k) st = (st', Return rows).
Proof.
  induction names as [| n rest IH]; intros acc s s' sd H k rows Hin.
  - simpl in H. inversion H; subst. now left.
  - destruct (is_str n) eqn:Hn.
    + rewrite collect_samples_str in H by assumption.
      destruct (execute_sql_query E (sample_query n) s) as [s1 [rows1 | e]] eqn:Hq.
      * destruct (IH _ _ _ _ H _ _ Hin) as [Hacc | Hex]; [| now right].
        apply in_set_value in Hacc. destruct Hacc as [Hacc | [-> ->]]; [now left |].
        right. eauto.
      * exact (IH _ _ _ _ H _ _ Hin).
    + rewrite collect_samples_other in H by assumption.
      exact (IH _ _ _ _ H _ _ Hin).
Qed.

End Info.

Section InfoResult.
Variable E : Engine.

Lemma get_database_info_unfold s s0 s1 sch :
  ensure_database E s = (s0, Return tt) ->
  get_table_schema E s0 = (s1, Return sch) ->
  get_database_info E s
  = match collect_samples E (PyDict.keys sch) [] s1 with
    | (s2, Return sd) => (s2, Return (mkDatabaseInfo sch sd))
    | (s2, Raise e) => (s2, Raise e)
    end.
Proof.
  intros He Hs. unfold get_database_info. unfold bind at 1. rewrite He.
  unfold bind at 1. rewrite Hs. unfold bind, ret.
  destruct (collect_samples E (PyDict.keys sch) [] s1) as [s2 [sd | e]]; reflexivity.
Qed.

(** C4 (as amended).  Once the database is ensured and the reflector has
    returned [schema], [get_database_info] returns [schema] together with
    the dictionary the sampling loop builds over the keys of [schema]; the
    loop never raises.  That dictionary is the one of the description:
    in the order of the keys, each string key is bound to what the
    executor returned for [SELECT * FROM <key> LIMIT 3], be it the rows
    fetched or, when the engine rejected the query with an
    [sqlite3.Error], the error record [[{"error": text}]]; every value
    stored is a value the executor returned for that key's query.  A key
    is passed over without trace only when it is not a string or when its
    fetch raises an exception the executor does not convert. *)
Theorem sample_data_collection (s s0 s1 : db E) (sch : schema_dict) :
  ensure_database E s = (s0, Return tt) ->
  get_table_schema E s0 = (s1, Return sch) ->
  exists s2 sd,
    get_database_info E s = (s2, Return (mkDatabaseInfo sch sd))
    /\ collect_samples E (PyDict.keys sch) [] s1 = (s2, Return sd)
    /\ (forall k, In k (PyDict.keys sd) -> In k (PyDict.keys sch) /\ is_str k = true)
    /\ (forall k, In k (PyDict.keys sch) -> is_str k = true ->
          (forall st, exists st' rows,
              execute_sql_query E (sample_query k) st = (st', Return rows)) ->
          In k (PyDict.keys sd))
    /\ (forall k rest sd0 st st' m,
          is_str k = true ->
          query_attempt E (sample_query k) st = (st', Raise (SqliteError m)) ->
          collect_samples E (k :: rest) sd0 st
          = collect_samples E rest
              (PyDict.set value_eqb sd0 k [[("error", VText m)]]) st')
    /\ (forall k rest sd0 st st' m,
          is_str k = true ->
          query_attempt E (sample_query k) st = (st', Raise (OtherException m)) ->
          collect_samples E (k :: rest) sd0 st = collect_samples E rest sd0 st')
    /\ samples_by_the_words E (PyDict.keys sch) s1 = (s2, sd)
    /\ (forall k rows, In (k, rows) sd ->
          exists st st',
            execute_sql_query E (sample_query k) st = (st', Return rows))
    /\ (forall k rest sd0 st,
          is_str k = true ->
          collect_samples E (k :: rest) sd0 st
          = match execute_sql_query E (sample_query k) st with
            | (st', Return rows) =>
                collect_samples E rest (PyDict.set value_eqb sd0 k rows) st'
            | (st', Raise _) => collect_samples E rest sd0 st'
            end).
Proof.
  intros He Hs.
  destruct (collect_samples_returns E (PyDict.keys sch) [] s1) as [s2 [sd Hc]].
  exists s2, sd.
  split; [| split; [| split; [| split; [| split; [| split; [| split; [| split]]]]]]].
  - rewrite (get_database_info_unfold _ _ _ _ He Hs), Hc. reflexivity.
  - exact Hc.
  - intros k Hk.
    destruct (collect_samples_only E _ _ _ _ _ _ Hc Hk) as [[] | H]; exact H.
  - intros k Hk Hstr Hret. eapply collect_samples_stores; eassumption.
  - intros k rest sd0 st st' m Hstr Hq.
    rewrite collect_samples_str by assumption.
    pose proof (execute_sql_query_boundary E (sample_query k) st) as Hb.
    rewrite Hq in Hb. now rewrite Hb.
  - intros k rest sd0 st st' m Hstr Hq.
    rewrite collect_samples_str by assumption.
    pose proof (execute_sql_query_boundary E (sample_query k) st) as Hb.
    rewrite Hq in Hb. now rewrite Hb.
  - pose proof (collect_samples_by_the_words E (PyDict.keys sch) [] s1) as Hw.
    simpl app in Hw. rewrite Hc in Hw.
    specialize (Hw (get_table_schema_nodup E _ _ _ Hs)).
    destruct (samples_by_the_words E (PyDict.keys sch) s1) as [s2' sd'].
    simpl in Hw. now inversion Hw.
  - intros k rows Hin.
    destruct (collect_samples_provenance E _ _ _ _ _ Hc _ _ Hin) as [[] | H]; exact H.
  - intros k rest sd0 st Hstr. now apply collect_samples_str.
Qed.

(** What the sampling loop makes of the reflector's error record. *)
Lemma collect_samples_of_schema_error (m : string) (s1 : db E) :
  collect_samples E (PyDict.keys (schema_error (SqliteError m))) [] s1
  = match execute_sql_query E "SELECT * FROM error LIMIT 3" s1 with
    | (s2, Return rows) => (s2, Return [(VText "error", rows)])
    | (s2, Raise _) => (s2, Return [])
    end.
Proof.
  simpl PyDict.keys. rewrite collect_samples_str by reflexivity.
  change (sample_query (VText "error")) with "SELECT * FROM error LIMIT 3".
  destruct (execute_sql_query E "SELECT * FROM error LIMIT 3" s1)
    as [s2 [rows | e]]; reflexivity.
Qed.

(** C6 (as amended).  When the database is ensured and schema reflection
    fails with an [sqlite3.Error], [get_database_info] does not raise and
    still returns the two-key record [{schema, sample_data}]: the error
    record [{"error": text}] is the value of [schema], not the result
    itself. *)
Theorem get_database_info_on_schema_failure (s s0 s1 : db E) (m : string) :
  ensure_database E s = (s0, Return tt) ->
  schema_attempt E s0 = (s1, Raise (SqliteError m)) ->
  exists s2 sd,
    get_database_info E s
    = (s2, Return (mkDatabaseInfo [(VText "error", ErrorText m)] sd))
    /\ database_info_keys (mkDatabaseInfo [(VText "error", ErrorText m)] sd)
       = ["schema"; "sample_data"].
Proof.
  intros He Hs.
  assert (Hg : get_table_schema E s0 = (s1, Return (schema_error (SqliteError m)))).
  { unfold get_table_schema. rewrite (try_except_caught E _ _ _ _ _ _ Hs); reflexivity. }
  rewrite (get_database_info_unfold _ _ _ _ He Hg).
  rewrite collect_samples_of_schema_error.
  destruct (execute_sql_query E "SELECT * FROM error LIMIT 3" s1)
    as [s2 [rows | e]]; eexists; eexists; split; reflexivity.
Qed.

End InfoResult.

(** C4 on the reference engine: the sample shop yields its first three
    rows under the table's name. *)
Lemma sample_data_collection_witness :
  exists sch,
    get_database_info Sqlite.engine Samples.shop
    = (Samples.shop,
       Return (mkDatabaseInfo sch
                 [(VText "products",
                   [[("element", VInt 1); ("unit", VText "kg"); ("year", VInt 2013)];
                    [("element", VInt 2); ("unit", VText "kg"); ("year", VInt 2014)];
                    [("element", VInt 3); ("unit", VText "t"); ("year", VInt 2015)]])])).
Proof.
  destruct (sample_data_collection Sqlite.engine Samples.shop Samples.shop
              Samples.shop
              [(VText "products",
                Columns [mkDescriptor (VText "element") (VText "INTEGER") false true;
                         mkDescriptor (VText "unit") (VText "TEXT") true false;
                         mkDescriptor (VText "year") (VText "INTEGER") false false])]
              eq_refl eq_refl)
    as [s2 [sd [Hrun [Hc _]]]].
  vm_compute in Hc. inversion Hc; subst s2 sd.
  eexists. exact Hrun.
Defined.

(** C6 on the reference engine: a catalog the reflector cannot walk. *)
Lemma get_database_info_on_schema_failure_witness :
  exists s2 sd,
    get_database_info Sqlite.engine Samples.dashed
    = (s2, Return (mkDatabaseInfo [(VText "error", ErrorText "syntax error")] sd)).
Proof.
  destruct (get_database_info_on_schema_failure Sqlite.engine Samples.dashed
              Samples.dashed Samples.dashed "syntax error" eq_refl eq_refl)
    as [s2 [sd [Hrun _]]].
  exists s2, sd. exact Hrun.
Defined.

(** C4, refuted as stated: this database has one table, a string key of
    the schema mapping; its sample fetch fails in the engine, and yet
    [sample_data] holds an entry for it, which records the failure. *)
Lemma failed_sample_fetch_is_recorded :
  exists s info,
    get_database_info Sqlite.engine Samples.keyword = (s, Return info)
    /\ schema info
       = [(VText "default",
           Columns [mkDescriptor (VText "x") (VText "") false false])]
    /\ snd (execute_sql_query Sqlite.engine (sample_query (VText "default"))
              Samples.keyword)
       = Return [[("error", VText "syntax error")]]
    /\ PyDict.get value_eqb (sample_data info) (VText "default")
       = Some [[("error", VText "syntax error")]].
Proof.
  eexists. eexists. split; [vm_compute; reflexivity |].
  split; [reflexivity | split; reflexivity].
Qed.

(** C6, refuted as stated: schema reflection fails on this database, and
    the result is the usual two-key record with the error nested under
    [schema], not a record whose top-level key is ["error"]. *)
Lemma schema_failure_keeps_the_shape :
  exists s info,
    get_table_schema Sqlite.engine Samples.dashed
    = (s, Return [(VText "error", ErrorText "syntax error")])
    /\ get_database_info Sqlite.engine Samples.dashed = (s, Return info)
    /\ schema info = [(VText "error", ErrorText "syntax error")]
    /\ ~ In "error" (database_info_keys info).
Proof.
  eexists. eexists. split; [vm_compute; reflexivity |].
  split; [vm_compute; reflexivity |].
  split; [reflexivity |].
  simpl. intros [H | [H | []]]; discriminate.
Qed.

(** ** The Initializer on the reference engine *)

Module InitFacts.
Import Sqlite.

Lemma execute_create_customers w :
  sql_execute create_customers w
  = match find_table "customers" (current w) with
    | Some _ => (w, Return no_rows)
    | None => failed w "duplicate column name: Area"
    end.
Proof.
  unfold sql_execute.
  replace (parse create_customers)
    with (Some (CreateIfNotExists "customers" customers_columns []))
    by (vm_compute; reflexivity).
  unfold run.
  replace (repeated_column [] customers_columns) with (Some "Area")
    by (vm_compute; reflexivity).
  reflexivity.
Qed.

Lemma execute_create_products w :
  sql_execute create_products w
  = match find_table "products" (current w) with
    | Some _ => (w, Return no_rows)
    | None => (apply_now w (current w ++ [products_table])%list, Return no_rows)
    end.
Proof.
  unfold sql_execute.
  replace (parse create_products)
    with (Some (CreateIfNotExists "products" products_columns []))
    by (vm_compute; reflexivity).
  unfold run.
  replace (repeated_column [] products_columns) with (@None string)
    by (vm_compute; reflexivity).
  reflexivity.
Qed.

Lemma execute_create_sales w :
  exists msg,
    sql_execute create_sales w
    = match find_table "sales" (current w) with
      | Some _ => (w, Return no_rows)
      | None => failed w msg
      end.
Proof.
  eexists. unfold sql_execute.
  replace (parse create_sales)
    with (Some (CreateIfNotExists "sales" sales_columns ["area"]))
    by (vm_compute; reflexivity).
  unfold run.
  replace (repeated_column [] sales_columns) with (@None string)
    by (vm_compute; reflexivity).
  replace (first_missing ["area"] sales_columns) with (Some "area")
    by (vm_compute; reflexivity).
  reflexivity.
Qed.

Lemma execute_create_unit w :
  exists msg,
    sql_execute create_unit w
    = match find_table "unit" (current w) with
      | Some _ => (w, Return no_rows)
      | None => failed w msg
      end.
Proof.
  eexists. unfold sql_execute.
  replace (parse create_unit)
    with (Some (CreateIfNotExists "unit" unit_columns ["unit"; "element"]))
    by (vm_compute; reflexivity).
  unfold run.
  replace (repeated_column [] unit_columns) with (@None string)
    by (vm_compute; reflexivity).
  replace (first_missing ["unit"; "element"] unit_columns) with (Some "element")
    by (vm_compute; reflexivity).
  reflexivity.
Qed.

Lemma execute_count_customers w :
  sql_execute count_customers w
  = match find_table "customers" (current w) with
    | None => failed w "no such table: customers"
    | Some t =>
        (w, Return (mkCursor ["COUNT(*)"]
                      [[VInt (Z.of_nat (length (t_rows t)))]] (-1)))
    end.
Proof.
  unfold sql_execute.
  replace (parse count_customers) with (Some (Count "COUNT(*)" "customers"))
    by (vm_compute; reflexivity).
  reflexivity.
Qed.

Lemma find_app_present n d t :
  find_table n d <> None -> find_table n (d ++ [t])%list = find_table n d.
Proof.
  induction d as [| x d IH]; simpl; intros H; [contradiction |].
  destruct (same_name (t_name x) n); [reflexivity | now apply IH].
Qed.

Lemma find_app_absent n d t :
  find_table n d = None ->
  find_table n (d ++ [t])%list = if same_name (t_name t) n then Some t else None.
Proof.
  induction d as [| x d IH]; simpl; intros H; [reflexivity |].
  destruct (same_name (t_name x) n); [discriminate | now apply IH].
Qed.

End InitFacts.

(** ** Repeating the Initializer *)

Section Invariants.
Context {S : Type} (P : S -> Prop).

Lemma preserves_ret {A} (a : A) : preserves P (ret a).
Proof. intros s s' r H Hs. inversion H; now subst. Qed.

Lemma preserves_lift {A} (o : outcome A) : preserves P (lift o).
Proof. intros s s' r H Hs. inversion H; now subst. Qed.

Lemma preserves_bind {A B} (m : M S A) (k : A -> M S B) :
  preserves P m ->
  (forall a s s', m s = (s', Return a) -> P s -> preserves P (k a)) ->
  preserves P (bind m k).
Proof.
  intros Hm Hk s s' r H Hs. unfold bind in H.
  destruct (m s) as [s1 [a | e]] eqn:Hms.
  - apply (Hk a s s1 Hms Hs s1 s' r H). exact (Hm _ _ _ Hms Hs).
  - inversion H; subst. exact (Hm _ _ _ Hms Hs).
Qed.

Lemma preserves_conn_scope {A} (reclaim : S -> S) (body : M S A) :
  (forall s, P s -> P (reclaim s)) ->
  preserves P body -> preserves P (conn_scope reclaim body).
Proof.
  intros Hr Hb s s' r H Hs. unfold conn_scope in H.
  destruct (body s) as [s1 [a | e]] eqn:Hbs; inversion H; subst.
  - exact (Hb _ _ _ Hbs Hs).
  - apply Hr. exact (Hb _ _ _ Hbs Hs).
Qed.

Lemma preserves_try_except {A} (body : M S A) catches handler :
  preserves P body -> (forall e, preserves P (handler e)) ->
  preserves P (try_except body catches handler).
Proof.
  intros Hb Hh s s' r H Hs. unfold try_except in H.
  destruct (body s) as [s1 [a | e]] eqn:Hbs.
  - inversion H; subst. exact (Hb _ _ _ Hbs Hs).
  - destruct (catches e).
    + exact (Hh e _ _ _ H (Hb _ _ _ Hbs Hs)).
    + inversion H; subst. exact (Hb _ _ _ Hbs Hs).
Qed.

End Invariants.

Section Repeat.
Variable E : Engine.
Variable O : Type.
Variable obs : db E -> O.
Variable idle : db E -> Prop.
Variable customers_count : O -> Z.

Hypothesis connect_law : forall s s' r,
  connect E DB_PATH s = (s', r) -> idle s -> idle s' /\ obs s' = obs s.
Hypothesis table_law : forall sql s s' r,
  In sql table_statements ->
  execute E sql s = (s', r) -> idle s -> idle s' /\ obs s' = obs s.
Hypothesis count_law : forall s s' r,
  execute E count_customers s = (s', r) -> idle s ->
  idle s' /\ obs s' = obs s /\
  forall cur, r = Return cur ->
              fetchone_0 cur = Return (VInt (customers_count (obs s))).
Hypothesis commit_law : forall s s' r,
  commit E s = (s', r) -> idle s -> idle s' /\ obs s' = obs s.
Hypothesis close_law : forall s s' r,
  close E s = (s', r) -> idle s -> idle s' /\ obs s' = obs s.
Hypothesis closed_law : forall s s',
  close E s = (s', Return tt) -> idle s'.
Hypothesis abandon_law : forall s,
  idle s -> idle (abandon E s) /\ obs (abandon E s) = obs s.

Lemma quiet_step {A} (m : M (db E) A) (o : O) :
  (forall s s' r, m s = (s', r) -> idle s -> idle s' /\ obs s' = obs s) ->
  preserves (quiet obs idle o) m.
Proof.
  intros Hm s s' r H [Hi Ho]. destruct (Hm _ _ _ H Hi) as [Hi' Ho'].
  split; [assumption | congruence].
Qed.

Lemma init_database_quiet (o : O) :
  customers_count o <> 0 -> preserves (quiet obs idle o) (init_database E).
Proof.
  intros Hn. unfold init_database.
  apply preserves_bind; [apply quiet_step, connect_law |]. intros _ _ _ _ _.
  apply preserves_conn_scope.
  { intros s [Hi Ho]. destruct (abandon_law s Hi). split; [assumption | congruence]. }
  apply preserves_bind;
    [apply quiet_step; intros s s' r; apply table_law; now left |].
  intros _ _ _ _ _.
  apply preserves_bind;
    [apply quiet_step; intros s s' r; apply table_law; right; now left |].
  intros _ _ _ _ _.
  apply preserves_bind;
    [apply quiet_step; intros s s' r; apply table_law; right; right; now left |].
  intros _ _ _ _ _.
  apply preserves_bind;
    [apply quiet_step; intros s s' r; apply table_law; right; right; right; now left |].
  intros _ _ _ _ _.
  apply preserves_bind.
  { apply quiet_step. intros s s' r H Hi.
    destruct (count_law _ _ _ H Hi) as [A [B _]]. now split. }
  intros cur s s' Hcur [Hi Ho].
  destruct (count_law _ _ _ Hcur Hi) as [_ [_ Hfetch]].
  rewrite (Hfetch cur eq_refl), Ho.
  apply preserves_bind; [apply preserves_lift |].
  intros n s0 s0' Hl _. inversion Hl; subst n.
  unfold equals_zero.
  replace (customers_count o =? 0) with false by (symmetry; now apply Z.eqb_neq).
  apply preserves_bind; [apply preserves_ret |]. intros _ _ _ _ _.
  apply preserves_bind; [apply quiet_step, commit_law |]. intros _ _ _ _ _.
  apply preserves_bind; [apply quiet_step, close_law |]. intros _ _ _ _ _.
  apply preserves_ret.
Qed.

Lemma returns_in_bind {A B} (m : M (db E) A) (k : A -> M (db E) B) :
  (forall a, returns_in idle (k a)) -> returns_in idle (bind m k).
Proof.
  intros Hk s s' b H. unfold bind in H.
  destruct (m s) as [s1 [a | e]]; [exact (Hk a _ _ _ H) | discriminate].
Qed.

Lemma returns_in_conn_scope {A} (body : M (db E) A) :
  returns_in idle body -> returns_in idle (conn_scope (abandon E) body).
Proof.
  intros Hb s s' a H. unfold conn_scope in H.
  destruct (body s) as [s1 [a1 | e]] eqn:Hs; inversion H; subst.
  exact (Hb _ _ _ Hs).
Qed.

Lemma returns_in_close {A} (a : A) : returns_in idle (close E ;;; ret a).
Proof.
  intros s s' a' H. unfold bind, ret in H.
  destruct (close E s) as [s1 [[] | e]] eqn:Hc; inversion H; subst.
  exact (closed_law _ _ Hc).
Qed.

Lemma init_database_returns_idle : returns_in idle (init_database E).
Proof.
  unfold init_database.
  apply returns_in_bind; intros _. apply returns_in_conn_scope.
  do 8 (apply returns_in_bind; intros ?).
  apply returns_in_close.
Qed.

(** C1 (as amended).  Take any driver for which connecting, the four
    table definitions, the count query, [commit], [close] and dropping
    the connection leave the rows as they are when no work is pending,
    for which the count query reports the number of rows of [customers],
    and for which nothing is pending after a [close] that returned.  Then
    a call of [init_database] that finds [customers] non-empty leaves all
    rows unchanged, whether it returns or raises; hence, after a call
    that returned and left [customers] non-empty, a second call changes
    no row count and adds no seed row.  The guard is the emptiness check
    alone.  The four table definitions all read [CREATE TABLE IF NOT
    EXISTS], and on the reference engine they succeed and change nothing
    when the tables exist. *)
Theorem init_database_repeat_safe :
  (forall s,
     idle s -> customers_count (obs s) <> 0 ->
     obs (fst (init_database E s)) = obs s /\ idle (fst (init_database E s)))
  /\
  (forall s s1 msg,
     init_database E s = (s1, Return msg) ->
     customers_count (obs s1) <> 0 ->
     obs (fst (init_database E s1)) = obs s1)
  /\
  Forall (fun sql =>
            PyStr.startswith (PyStr.strip sql) "CREATE TABLE IF NOT EXISTS" = true)
         table_statements
  /\
  (forall w0,
     Sqlite.find_table "customers" (Sqlite.current w0) <> None ->
     Sqlite.find_table "products" (Sqlite.current w0) <> None ->
     Sqlite.find_table "sales" (Sqlite.current w0) <> None ->
     Sqlite.find_table "unit" (Sqlite.current w0) <> None ->
     Forall (fun sql => Sqlite.sql_execute sql w0 = (w0, Return Sqlite.no_rows))
            table_statements).
Proof.
  assert (Htext : Forall (fun sql =>
            PyStr.startswith (PyStr.strip sql) "CREATE TABLE IF NOT EXISTS" = true)
            table_statements) by (repeat constructor).
  assert (Href : forall w0,
     Sqlite.find_table "customers" (Sqlite.current w0) <> None ->
     Sqlite.find_table "products" (Sqlite.current w0) <> None ->
     Sqlite.find_table "sales" (Sqlite.current w0) <> None ->
     Sqlite.find_table "unit" (Sqlite.current w0) <> None ->
     Forall (fun sql => Sqlite.sql_execute sql w0 = (w0, Return Sqlite.no_rows))
            table_statements).
  { intros w0 Hc Hp Hs Hu. repeat constructor.
    - rewrite InitFacts.execute_create_customers.
      destruct (Sqlite.find_table "customers" (Sqlite.current w0));
        [reflexivity | contradiction].
    - rewrite InitFacts.execute_create_products.
      destruct (Sqlite.find_table "products" (Sqlite.current w0));
        [reflexivity | contradiction].
    - destruct (InitFacts.execute_create_sales w0) as [m ->].
      destruct (Sqlite.find_table "sales" (Sqlite.current w0));
        [reflexivity | contradiction].
    - destruct (InitFacts.execute_create_unit w0) as [m ->].
      destruct (Sqlite.find_table "unit" (Sqlite.current w0));
        [reflexivity | contradiction]. }
  assert (Hone : forall s, idle s -> customers_count (obs s) <> 0 ->
            obs (fst (init_database E s)) = obs s
            /\ idle (fst (init_database E s))).
  { intros s Hi Hn.
    destruct (init_database E s) as [s' r] eqn:H.
    destruct (init_database_quiet (obs s) Hn _ _ _ H (conj Hi eq_refl)) as [A B].
    now split. }
  split; [exact Hone |]. split; [| split; assumption].
  intros s s1 msg H Hn. apply Hone; [| assumption].
  exact (init_database_returns_idle _ _ _ H).
Qed.

End Repeat.

(** The reference engine obeys the laws. *)

Module RepeatFacts.
Import Sqlite InitFacts.

Section Laws.
Variable names : list string.
Let obs := snapshot ("customers" :: names).

Lemma idle_current w : idle w -> current w = stored w.
Proof. unfold idle, current. now intros ->. Qed.

Lemma rows_of_new_table n d t :
  find_table (t_name t) d = None -> t_rows t = [] ->
  rows_of n (d ++ [t])%list = rows_of n d.
Proof.
  intros Hf Hr. unfold rows_of. destruct (find_table n d) eqn:Hn.
  - rewrite find_app_present by (rewrite Hn; discriminate). now rewrite Hn.
  - rewrite find_app_absent by assumption.
    destruct (same_name (t_name t) n); [now rewrite Hr | reflexivity].
Qed.

Lemma connect_law w w' r :
  connect engine DB_PATH w = (w', r) -> idle w -> idle w' /\ obs w' = obs w.
Proof. intros H _. inversion H; subst. now split. Qed.

Lemma table_law sql w w' r :
  In sql table_statements ->
  execute engine sql w = (w', r) -> idle w -> idle w' /\ obs w' = obs w.
Proof.
  change (execute engine) with sql_execute.
  intros [<- | [<- | [<- | [<- | []]]]] H Hi.
  - rewrite execute_create_customers in H.
    destruct (find_table "customers" (current w)); inversion H; subst; now split.
  - rewrite execute_create_products in H.
    destruct (find_table "products" (current w)) eqn:Hp; inversion H; subst.
    + now split.
    + rewrite (idle_current w Hi) in *. unfold apply_now. rewrite Hi. split.
      * reflexivity.
      * unfold obs, snapshot. simpl stored. apply map_ext. intros n.
        now apply rows_of_new_table.
  - destruct (execute_create_sales w) as [m Hm]. rewrite Hm in H.
    destruct (find_table "sales" (current w)); inversion H; subst; now split.
  - destruct (execute_create_unit w) as [m Hm]. rewrite Hm in H.
    destruct (find_table "unit" (current w)); inversion H; subst; now split.
Qed.

Lemma count_law w w' r :
  execute engine count_customers w = (w', r) -> idle w ->
  idle w' /\ obs w' = obs w /\
  forall cur, r = Return cur ->
              fetchone_0 cur = Return (VInt (first_count (obs w))).
Proof.
  change (execute engine) with sql_execute. intros H Hi.
  rewrite execute_count_customers, (idle_current w Hi) in H.
  unfold obs, snapshot, first_count, rows_of. simpl hd.
  destruct (find_table "customers" (stored w)) as [t |];
    inversion H; subst; repeat split; try assumption.
  - intros cur Hc. inversion Hc; subst. reflexivity.
  - intros cur Hc. discriminate.
Qed.

Lemma commit_law w w' r :
  commit engine w = (w', r) -> idle w -> idle w' /\ obs w' = obs w.
Proof.
  intros H Hi. inversion H; subst. split; [reflexivity |].
  unfold obs, snapshot. simpl stored. now rewrite (idle_current w Hi).
Qed.

Lemma close_law w w' r :
  close engine w = (w', r) -> idle w -> idle w' /\ obs w' = obs w.
Proof. intros H _. inversion H; subst. now split. Qed.

Lemma closed_law w w' : close engine w = (w', Return tt) -> idle w'.
Proof. intros H. inversion H; subst. reflexivity. Qed.

Lemma abandon_law w : idle w -> idle (abandon engine w) /\ obs (abandon engine w) = obs w.
Proof. intros _. now split. Qed.

End Laws.
End RepeatFacts.

(** C1 on the reference engine: the file [matching] is seeded by a first
    call, and a second call leaves the rows of the four seed tables as
    they are. *)
Lemma init_database_repeat_safe_witness :
  Sqlite.snapshot ("customers" :: Samples.watched)
    (fst (init_database Sqlite.engine
            (fst (init_database Sqlite.engine Samples.matching))))
  = Sqlite.snapshot ("customers" :: Samples.watched)
      (fst (init_database Sqlite.engine Samples.matching)).
Proof.
  destruct (init_database_repeat_safe Sqlite.engine _
              (Sqlite.snapshot ("customers" :: Samples.watched)) Sqlite.idle Sqlite.first_count
              (RepeatFacts.connect_law Samples.watched) (RepeatFacts.table_law Samples.watched)
              (RepeatFacts.count_law Samples.watched) (RepeatFacts.commit_law Samples.watched)
              (RepeatFacts.close_law Samples.watched) RepeatFacts.closed_law
              (RepeatFacts.abandon_law Samples.watched))
    as [_ [Htwice _]].
  apply (Htwice Samples.matching _ "Database initialized with sample data.").
  - reflexivity.
  - vm_compute. discriminate.
Defined.

(** C1, refuted as stated: in this file [customers] passes over rows that
    give no region.  Each call of [init_database] returns, finds
    [customers] empty and seeds again: [products] holds five rows after
    the first call and ten after the second. *)
Lemma seed_rows_are_duplicated :
  let once := init_database Sqlite.engine Samples.ignoring in
  let twice := init_database Sqlite.engine (fst once) in
  snd once = Return "Database initialized with sample data."
  /\ snd twice = Return "Database initialized with sample data."
  /\ Sqlite.rows_of "customers" (Sqlite.stored (fst once)) = []
  /\ length (Sqlite.rows_of "products" (Sqlite.stored (fst once))) = 5%nat
  /\ length (Sqlite.rows_of "products" (Sqlite.stored (fst twice))) = 10%nat.
Proof. cbv zeta. repeat split; vm_compute; reflexivity. Qed.

(** ** The seed data after a fresh initialization *)

(** C8, on the reference engine.  From a missing database file the
    Initializer stops at its first statement, whose column list names
    [Area] twice; no table is stored, and the count query that follows is
    answered by an error record instead of the single row [{"c": 5}] for
    the five seed customers.  Independently, the seed statement for
    [customers] names a column the table definition does not declare. *)
Theorem seed_count_after_fresh_init :
  snd (init_database Sqlite.engine Sqlite.fresh)
  = Raise (SqliteError "duplicate column name: Area")
  /\ Sqlite.stored (fst (init_database Sqlite.engine Sqlite.fresh)) = []
  /\ snd (execute_sql_query Sqlite.engine "SELECT COUNT(*) AS c FROM customers"
            (fst (init_database Sqlite.engine Sqlite.fresh)))
     = Return [[("error", VText "no such table: customers")]]
  /\ length seed_customers = 5%nat
  /\ Sqlite.first_missing ["name"; "email"; "phone"; "address"]
       Sqlite.customers_columns = Some "name".
Proof. repeat split; vm_compute; reflexivity. Qed.

(** On a file whose tables carry the columns the seed statements name,
    the Initializer does seed once: five customers after the first call,
    reported by the count query, and five after the second. *)
Example seed_count_on_matching_tables :
  let once := fst (init_database Sqlite.engine Samples.matching) in
  let twice := fst (init_database Sqlite.engine once) in
  snd (execute_sql_query Sqlite.engine "SELECT COUNT(*) AS c FROM customers" once)
  = Return [[("c", VInt 5)]]
  /\ Sqlite.stored_customers once = Some 5%nat
  /\ Sqlite.stored_customers twice = Some 5%nat.
Proof. repeat split; vm_compute; reflexivity. Qed.

(** ** How a statement is classified *)

Section Classification.

Lemma space_upper_fixed c : PyStr.is_space c = true -> PyStr.upper_char c = c.
Proof. destruct c as [[] [] [] [] [] [] [] []]; vm_compute; congruence. Qed.

Lemma upper_app a b : PyStr.upper (a ++ b) = PyStr.upper a ++ PyStr.upper b.
Proof. induction a as [| c a IH]; simpl; [reflexivity | now rewrite IH]. Qed.

Lemma prefix_nil x : String.prefix "" x = true.
Proof. destruct x; reflexivity. Qed.

Lemma prefix_cons a p c t :
  String.prefix (String a p) (String c t)
  = if ascii_dec a c then String.prefix p t else false.
Proof. reflexivity. Qed.

Lemma prefix_app p x : String.prefix p (p ++ x) = true.
Proof.
  induction p as [| c p IH]; [apply prefix_nil |].
  simpl append. rewrite prefix_cons.
  destruct (ascii_dec c c); [assumption | contradiction].
Qed.

Lemma lstrip_split q :
  exists pre, all_space pre = true /\ q = pre ++ PyStr.lstrip q.
Proof.
  induction q as [| c q [pre [Hs Hq]]]; simpl.
  - exists "". now split.
  - destruct (PyStr.is_space c) eqn:Hc.
    + exists (String c pre). simpl. rewrite Hc, Hs. split; [reflexivity |].
      now rewrite <- Hq.
    + exists "". now split.
Qed.

Lemma lstrip_app_space pre q :
  all_space pre = true -> PyStr.lstrip (pre ++ q) = PyStr.lstrip q.
Proof.
  induction pre as [| c pre IH]; simpl; [reflexivity |].
  intros H. apply andb_prop in H. destruct H as [Hc Hp]. rewrite Hc. now apply IH.
Qed.

Lemma prefix_upper_rstrip : forall t p,
  no_space p = true ->
  String.prefix p (PyStr.upper (PyStr.rstrip t)) = String.prefix p (PyStr.upper t).
Proof.
  induction t as [| c t IH]; intros p Hp; [reflexivity |].
  destruct p as [| a p]; [now rewrite !prefix_nil |].
  simpl in Hp. apply andb_prop in Hp. destruct Hp as [Ha Hp].
  apply negb_true_iff in Ha. specialize (IH p Hp).
  simpl PyStr.rstrip.
  destruct (PyStr.rstrip t) as [| r0 r] eqn:Hr.
  - destruct (PyStr.is_space c) eqn:Hc.
    + simpl PyStr.upper. rewrite prefix_cons, (space_upper_fixed c Hc).
      destruct (ascii_dec a c) as [-> | _]; [congruence | reflexivity].
    + simpl PyStr.upper. rewrite !prefix_cons.
      destruct (ascii_dec a (PyStr.upper_char c)); [exact IH | reflexivity].
  - simpl PyStr.upper. rewrite !prefix_cons.
    destruct (ascii_dec a (PyStr.upper_char c)); [exact IH | reflexivity].
Qed.

Lemma prefix_upper_split : forall p t,
  String.prefix p (PyStr.upper t) = true ->
  exists kw rest, t = kw ++ rest /\ PyStr.upper kw = p.
Proof.
  induction p as [| a p IH]; intros t H.
  - exists "", t. now split.
  - destruct t as [| c t]; [discriminate |].
    simpl PyStr.upper in H. rewrite prefix_cons in H.
    destruct (ascii_dec a (PyStr.upper_char c)) as [-> | _]; [| discriminate].
    destruct (IH t H) as [kw [rest [-> <-]]].
    exists (String c kw), rest. now split.
Qed.

Lemma is_select_lstrip q :
  is_select q = String.prefix "SELECT" (PyStr.upper (PyStr.lstrip q)).
Proof.
  unfold is_select, PyStr.startswith, PyStr.strip.
  now apply prefix_upper_rstrip.
Qed.

(** X1.  For a text whose characters all have code points below 256, the
    texts a [string] stands for: the text is classified as a read exactly
    when it consists of some white space, then the word SELECT in any mix
    of letter cases, then anything at all; neither what follows the word
    nor trailing white space has any part in the test.  (Beyond code
    point 255, [str.upper] maps a few more characters onto these letters,
    and such texts are outside this statement.) *)
Theorem is_select_characterised (q : string) :
  is_select q = true <->
  exists pre kw rest,
    q = pre ++ kw ++ rest /\ all_space pre = true /\ PyStr.upper kw = "SELECT".
Proof.
  rewrite is_select_lstrip. split.
  - intros H. destruct (lstrip_split q) as [pre [Hs Hq]].
    destruct (prefix_upper_split _ _ H) as [kw [rest [Hk Hu]]].
    exists pre, kw, rest. rewrite <- Hk. now repeat split.
  - intros [pre [kw [rest [-> [Hs Hu]]]]].
    rewrite lstrip_app_space by assumption.
    destruct kw as [| c kw]; [discriminate |].
    simpl PyStr.upper in Hu. inversion Hu as [[Hc Hkw]].
    assert (Hns : PyStr.is_space c = false).
    { destruct (PyStr.is_space c) eqn:E; [| reflexivity].
      rewrite (space_upper_fixed c E) in Hc. subst c. discriminate. }
    simpl PyStr.lstrip. rewrite Hns.
    change (String c kw ++ rest) with (String c (kw ++ rest)).
    simpl PyStr.upper. rewrite upper_app, Hc, Hkw.
    apply (prefix_app "SELECT").
Qed.
End Classification.

(** ** The values of a row dictionary *)

Section RowValues.

Lemma get_set_same (d : record) k v :
  PyDict.get String.eqb (PyDict.set String.eqb d k v) k = Some v.
Proof.
  induction d as [| [k' v'] d IH]; simpl.
  - now rewrite String.eqb_refl.
  - destruct (String.eqb k' k) eqn:Hk; simpl; rewrite Hk; [reflexivity | exact IH].
Qed.

Lemma get_set_other (d : record) k v k' :
  k' <> k ->
  PyDict.get String.eqb (PyDict.set String.eqb d k v) k'
  = PyDict.get String.eqb d k'.
Proof.
  intros Hne. induction d as [| [k0 v0] d IH]; simpl.
  - destruct (String.eqb k k') eqn:Hk; [| reflexivity].
    apply String.eqb_eq in Hk. congruence.
  - destruct (String.eqb k0 k) eqn:Hk; simpl.
    + apply String.eqb_eq in Hk. subst k0.
      destruct (String.eqb k k') eqn:Hk'; [| reflexivity].
      apply String.eqb_eq in Hk'. congruence.
    + now rewrite IH.
Qed.

Lemma comprehend_values names vals : forall ks acc d,
  (forall k v, PyDict.get String.eqb acc k = Some v ->
               Row.getitem names vals k = Return v) ->
  Row.comprehend names vals ks acc = Return d ->
  forall k v, PyDict.get String.eqb d k = Some v ->
              Row.getitem names vals k = Return v.
Proof.
  induction ks as [| k0 ks IH]; simpl; intros acc d Hacc H.
  - inversion H; subst. exact Hacc.
  - destruct (Row.getitem names vals k0) as [v0 | e] eqn:Hg; [| discriminate].
    apply (IH (PyDict.set String.eqb acc k0 v0)); [| exact H].
    intros k v Hk. destruct (string_dec k k0) as [-> | Hne].
    + rewrite get_set_same in Hk. inversion Hk; subst. exact Hg.
    + rewrite get_set_other in Hk by assumption. now apply Hacc.
Qed.

Lemma comprehend_covers names vals : forall ks acc d,
  Row.comprehend names vals ks acc = Return d ->
  forall k, In k ks \/ PyDict.get String.eqb acc k <> None ->
            PyDict.get String.eqb d k <> None.
Proof.
  induction ks as [| k0 ks IH]; simpl; intros acc d H k Hk.
  - inversion H; subst. destruct Hk as [[] | Hk]; exact Hk.
  - destruct (Row.getitem names vals k0) as [v0 | e] eqn:Hg; [| discriminate].
    apply (IH _ _ H). destruct (string_dec k k0) as [-> | Hne].
    + right. rewrite get_set_same. discriminate.
    + destruct Hk as [[Hk | Hk] | Hk]; [congruence | now left |].
      right. now rewrite get_set_other.
Qed.

(** X2.  In the dictionary made of a result row, every column name is a
    key, and the value under it is the one [sqlite3.Row] finds for that
    name: the value of the first column whose name is the same text or,
    when both names are ASCII, the same text up to letter case.  A column
    that repeats an earlier name in this sense never shows its own
    value. *)
Theorem to_dict_reads_first_match (names : list string) (vals : list value)
    (d : record) :
  Row.to_dict names vals = Return d ->
  forall k, In k names ->
  exists v, Row.getitem names vals k = Return v
            /\ PyDict.get String.eqb d k = Some v.
Proof.
  unfold Row.to_dict. intros H k Hk.
  pose proof (comprehend_covers _ _ _ _ _ H k (or_introl Hk)) as Hc.
  destruct (PyDict.get String.eqb d k) as [v |] eqn:Hg; [| contradiction].
  exists v. split; [| reflexivity].
  apply (comprehend_values names vals names [] d); [discriminate | exact H | exact Hg].
Qed.

(** X2 on the columns [a], [A], [b]: the key [A] carries the value of [a]. *)
Lemma to_dict_reads_first_match_witness :
  exists d,
    Row.to_dict ["a"; "A"; "b"] [VInt 1; VInt 2; VInt 3] = Return d
    /\ PyDict.get String.eqb d "A" = Some (VInt 1).
Proof.
  eexists. split; [reflexivity |].
  destruct (to_dict_reads_first_match ["a"; "A"; "b"] [VInt 1; VInt 2; VInt 3] _
              eq_refl "A") as [v [Hv Hd]].
  - right. now left.
  - vm_compute in Hv. inversion Hv; subst. exact Hd.
Defined.
End RowValues.

(** ** Error paths and composition, for any driver *)

Section ErrorPaths.
Variable E : Engine.

(** X3.  Once the connection is open, a statement the driver rejects with
    an [sqlite3.Error], and likewise a write whose [commit] fails with
    one, ends the call with the error record and with the connection
    dropped as it stands: no commit and no close follow the failure. *)
Theorem failed_statement_is_not_committed (q : string) (s s1 : db E) :
  connect E DB_PATH s = (s1, Return tt) ->
  (forall s2 m,
     execute E q s1 = (s2, Raise (SqliteError m)) ->
     execute_sql_query E q s = (abandon E s2, Return [[("error", VText m)]]))
  /\
  (forall s2 s3 cur m,
     execute E q s1 = (s2, Return cur) ->
     is_select q = false ->
     commit E s2 = (s3, Raise (SqliteError m)) ->
     execute_sql_query E q s = (abandon E s3, Return [[("error", VText m)]])).
Proof.
  intros Hc. split.
  - intros s2 m Hx.
    unfold execute_sql_query, try_except, query_attempt, bind, conn_scope.
    rewrite Hc, Hx. reflexivity.
  - intros s2 s3 cur m Hx Hs Hm.
    unfold execute_sql_query, try_except, query_attempt, bind, conn_scope.
    rewrite Hc, Hx, Hs, Hm. reflexivity.
Qed.

Lemma ensure_database_raises s s' e :
  ensure_database E s = (s', Raise e) ->
  path_exists E DB_PATH s = false /\ init_database E s = (s', Raise e).
Proof.
  unfold ensure_database, bind, ret.
  destruct (path_exists E DB_PATH s); [discriminate |].
  destruct (init_database E s) as [s1 [msg | e1]]; [discriminate |].
  intros H. inversion H; subst. now split.
Qed.

(** X4.  [get_database_info] raises in two situations only: the database
    file is missing and the Initializer raises, or the reflector raises
    an exception that is not an [sqlite3.Error].  Nothing that goes wrong
    while the sample rows are fetched reaches the caller. *)
Theorem get_database_info_raises_only (s s' : db E) (e : exn) :
  get_database_info E s = (s', Raise e) ->
  (path_exists E DB_PATH s = false /\ init_database E s = (s', Raise e))
  \/
  (exists s0, ensure_database E s = (s0, Return tt)
              /\ schema_attempt E s0 = (s', Raise e)
              /\ is_sqlite_error e = false).
Proof.
  intros H. unfold get_database_info in H. unfold bind at 1 in H.
  destruct (ensure_database E s) as [s0 [[] | e0]] eqn:He.
  - right. exists s0. split; [reflexivity |].
    unfold bind at 1 in H.
    destruct (get_table_schema E s0) as [s1 [sch | e1]] eqn:Hg.
    + unfold bind, ret in H.
      destruct (collect_samples_returns E (PyDict.keys sch) [] s1) as [s2 [sd Hc]].
      rewrite Hc in H. discriminate.
    + inversion H; subst. unfold get_table_schema, try_except in Hg.
      destruct (schema_attempt E s0) as [s2 [sch | e2]]; [discriminate |].
      destruct (is_sqlite_error e2) eqn:Hq; [discriminate |].
      inversion Hg; subst. now split.
  - left. inversion H; subst. now apply ensure_database_raises.
Qed.

(** X5.  Once the database is ensured, [text_to_sql] returns the record
    that echoes the query and carries the executor's result as it is;
    should the executor raise, the record carries instead the one-element
    result [[{"error": text}]] with the text of the exception, so that the
    caller sees the same shape whatever the class of the exception. *)
Theorem text_to_sql_result (q : string) (s s0 : db E) :
  ensure_database E s = (s0, Return tt) ->
  text_to_sql E q s
  = (fst (execute_sql_query E q s0),
     Return (mkQueryResult q
               match snd (execute_sql_query E q s0) with
               | Return rows => rows
               | Raise e => [[("error", VText (exn_text e))]]
               end)).
Proof.
  intros He. unfold text_to_sql. unfold bind at 1. rewrite He.
  unfold try_except, bind, ret, catch_all.
  destruct (execute_sql_query E q s0) as [s1 [rows | e]]; reflexivity.
Qed.

Lemma keys_set_fresh {V} (d : list (value * V)) k v :
  ~ In k (PyDict.keys d) ->
  PyDict.keys (PyDict.set value_eqb d k v) = (PyDict.keys d ++ [k])%list.
Proof.
  unfold PyDict.keys. induction d as [| [k0 v0] d IH]; simpl; intros Hn.
  - reflexivity.
  - destruct (value_eqb k0 k) eqn:Hk.
    + apply value_eqb_eq in Hk. subst. exfalso. apply Hn. now left.
    + simpl. f_equal. apply IH. intros Hin. apply Hn. now right.
Qed.

Lemma reflect_tables_key_order : forall tables acc s s' sch names,
  map_outcome (fun row => tuple_get row 0) tables = Return names ->
  NoDup (PyDict.keys acc ++ names) ->
  reflect_tables E tables acc s = (s', Return sch) ->
  PyDict.keys sch = (PyDict.keys acc ++ names)%list.
Proof.
  induction tables as [| table rest IH]; simpl; intros acc s s' sch names Hn Hd H.
  - inversion Hn; subst. inversion H; subst. now rewrite app_nil_r.
  - unfold bind, lift in H.
    destruct (tuple_get table 0) as [name | e]; [| discriminate].
    destruct (map_outcome (fun row => tuple_get row 0) rest) as [names' | e] eqn:Hr;
      [| discriminate].
    inversion Hn; subst names. clear Hn.
    destruct (execute E (table_info name) s) as [s1 [c | e]]; [| discriminate].
    destruct (map_outcome describe (fetched c)) as [cols | e]; [| discriminate].
    assert (Hfresh : ~ In name (PyDict.keys acc)).
    { apply NoDup_remove_2 in Hd. intros Hin. apply Hd. apply in_or_app. now left. }
    assert (Hd' : NoDup (PyDict.keys (PyDict.set value_eqb acc name (Columns cols))
                         ++ names')).
    { rewrite keys_set_fresh by assumption. now rewrite <- app_assoc. }
    rewrite (IH _ _ _ _ names' eq_refl Hd' H).
    rewrite keys_set_fresh by assumption. now rewrite <- app_assoc.
Qed.

(** X6.  When the catalog lists pairwise different names and the loop over
    them runs through, the schema has exactly one key per table, in the
    order of the catalog. *)
Theorem get_table_schema_keys_in_catalog_order
    (s s1 s2 s3 s4 : db E) (cur : cursor) (sch : schema_dict) (names : list value) :
  connect E DB_PATH s = (s1, Return tt) ->
  execute E list_tables s1 = (s2, Return cur) ->
  map_outcome (fun row => tuple_get row 0) (fetched cur) = Return names ->
  NoDup names ->
  reflect_tables E (fetched cur) [] s2 = (s3, Return sch) ->
  close E s3 = (s4, Return tt) ->
  get_table_schema E s = (s4, Return sch)
  /\ PyDict.keys sch = names
  /\ length sch = length (fetched cur).
Proof.
  intros Hc Hx Hn Hd Hr Hl.
  assert (Hk : PyDict.keys sch = names).
  { apply (reflect_tables_key_order _ [] _ _ _ _ Hn Hd Hr). }
  split; [| split; [exact Hk |]].
  - unfold get_table_schema. apply try_except_return.
    unfold schema_attempt, bind, conn_scope, ret. now rewrite Hc, Hx, Hr, Hl.
  - apply map_outcome_Forall2 in Hn. apply Forall2_length in Hn.
    rewrite Hn, <- Hk. unfold PyDict.keys. now rewrite length_map.
Qed.

End ErrorPaths.

(** X3 on the reference engine: a query on a table that does not exist. *)
Lemma failed_statement_is_not_committed_witness :
  execute_sql_query Sqlite.engine "SELECT * FROM nosuch LIMIT 3" Samples.shop
  = (Samples.shop, Return [[("error", VText "no such table: nosuch")]]).
Proof.
  apply (proj1 (failed_statement_is_not_committed Sqlite.engine
                  "SELECT * FROM nosuch LIMIT 3" Samples.shop Samples.shop eq_refl)
           Samples.shop "no such table: nosuch").
  reflexivity.
Defined.

(** X4 on the reference engine: a missing file. *)
Lemma get_database_info_raises_only_witness :
  Sqlite.sql_path_exists DB_PATH Sqlite.fresh = false
  /\ snd (init_database Sqlite.engine Sqlite.fresh)
     = Raise (SqliteError "duplicate column name: Area").
Proof.
  destruct (get_database_info_raises_only Sqlite.engine Sqlite.fresh
              (Sqlite.at_rest []) (SqliteError "duplicate column name: Area")
              eq_refl)
    as [[Hp Hi] | [s0 [He _]]].
  - split; [exact Hp | now rewrite Hi].
  - discriminate He.
Defined.

(** X5 on the sample shop. *)
Lemma text_to_sql_result_witness :
  text_to_sql Sqlite.engine "SELECT COUNT(*) AS c FROM products" Samples.shop
  = (Samples.shop,
     Return (mkQueryResult "SELECT COUNT(*) AS c FROM products" [[("c", VInt 4)]])).
Proof.
  rewrite (text_to_sql_result Sqlite.engine _ Samples.shop Samples.shop eq_refl).
  reflexivity.
Defined.

(** X6 on the five tables of the sample [matching]. *)
Lemma get_table_schema_keys_in_catalog_order_witness :
  PyDict.keys
    (match snd (get_table_schema Sqlite.engine Samples.matching) with
     | Return sch => sch
     | Raise _ => []
     end)
  = [VText "customers"; VText "products"; VText "sales"; VText "unit";
     VText "unit_items"].
Proof.
  pose (names := [VText "customers"; VText "products"; VText "sales"; VText "unit";
                  VText "unit_items"]).
  pose (cur := mkCursor ["name"] (map (fun n => [n]) names) (-1)).
  pose (sch := match snd (reflect_tables Sqlite.engine (fetched cur) []
                            Samples.matching) with
               | Return sch => sch
               | Raise _ => []
               end).
  assert (Hd : NoDup names) by (repeat constructor; simpl; intuition discriminate).
  destruct (get_table_schema_keys_in_catalog_order Sqlite.engine
              Samples.matching Samples.matching Samples.matching Samples.matching
              Samples.matching cur sch names eq_refl eq_refl eq_refl Hd eq_refl
              eq_refl)
    as [Hrun [Hkeys _]].
  rewrite Hrun. exact Hkeys.
Defined.

(** ** The database file after a call, on the reference engine *)

Module SeedFacts.
Import Sqlite InitFacts.








End SeedFacts.

(** ** Schema reflection as a whole, on the reference engine *)

Module SchemaFacts.
Import Sqlite InitFacts.

















End SchemaFacts.
